(** * BEL Commons (pybel-web): a shallow embedding of the worker tasks,
      the admin views and the network routes

    The development follows the Python sources file by file:

    - [celery_worker.py]     : [async_parser], [merge_project], [run_cmpa]
    - [admin_utils.py], [admin_service.py], [application_utils.py] :
      the Flask-Admin model views and the network AJAX loader
    - [main_service.py]      : the query and network routes

    Python objects held by the ORM session are rows of a store; the session
    keeps the working copy ([pending]) next to what was last committed
    ([persisted]).  A task is a function of the world that ends with a
    returned value or a raised exception, the effects made before a raise
    being kept.  Calls into pybel, pybel_tools, pandas, pickle and hashlib
    are fields of a record of externals; a call that the source places under
    a [try] is given its outcome by that record, a call that the source does
    not guard returns normally.  Logging is not modelled. *)

From Stdlib Require Import ZArith List Ascii String Bool Lia.
From stdpp Require Import base gmap sets list strings pretty.

Local Open Scope Z_scope.

(** ** Python values, exceptions and results *)

Inductive exn : Type :=
| ValueError (msg : string)
| KeyError (key : string)
| AttributeError
| ConnectionError
| InconsistentDefinitionError (definition : string) (line_number : Z)
| IntegrityError
| OperationalError
| MultipleResultsFound
| GeneralError (text : string)
| HTTPException (code : Z) (description : string).

Inductive result (A : Type) : Type :=
| Return (a : A)
| Raise (e : exn).
Arguments Return {A} a.
Arguments Raise {A} e.

(** What a task hands back to the queue: [None], an [int] or a [str]. *)
Inductive pyval : Type :=
| PyNone
| PyInt (z : Z)
| PyStr (s : string).

Definition bytes := list Z.

(** [str(e)] for the exceptions of this file. *)
Definition str_exn (e : exn) : string :=
  match e with
  | ValueError m => m
  | KeyError k => "'" +:+ k +:+ "'"
  | AttributeError => "AttributeError"
  | ConnectionError => "ConnectionError"
  | InconsistentDefinitionError d _ => d
  | IntegrityError => "IntegrityError"
  | OperationalError => "OperationalError"
  | MultipleResultsFound => "Multiple rows were found for one_or_none()"
  | GeneralError t => t
  | HTTPException _ d => d
  end.

(** Python's [str.format] of [None] prints [None]. *)
Definition str_opt (o : option string) : string :=
  match o with
  | Some s => s
  | None => "None"
  end.

(** Truth value of an attribute that is [None] or a [str]. *)
Definition truthy (o : option string) : bool :=
  match o with
  | Some s => negb (String.eqb s "")
  | None => false
  end.

Definition str_Z (z : Z) : string := pretty z.

(** ** The relational store *)

Record User : Type := mkUser {
  user_id : Z;
  email : string;
  is_admin : bool;
  admin : bool;
  is_scai : bool;
  user_projects : list Z
}.

Record Summary : Type := mkSummary {
  number_nodes : Z;
  number_edges : Z
}.

Record Report : Type := mkReport {
  report_id : Z;
  report_user : User;
  source_name : string;
  infer_origin : bool;
  public : bool;
  message : option string;
  time : option Z;
  report_network_id : option Z;
  calculations : option Summary
}.

Record Network : Type := mkNetwork {
  network_id : Z;
  network_name : string;
  network_version : string;
  blob : bytes;
  network_users : list User
}.

(** A BEL graph as the worker sees it: [graph.name], [graph.version],
    [graph.document] and the rest of its content. *)
Record Graph : Type := mkGraph {
  name : option string;
  version : option string;
  document : list (string * string);
  content : bytes
}.

Record Experiment : Type := mkExperiment {
  experiment_id : Z;
  experiment_user : User;
  query_id : Z;
  source : bytes;
  experiment_source_name : string;
  gene_column : string;
  data_column : string;
  permutations : Z;
  experiment_result : option bytes;
  completed : bool
}.

Record Project : Type := mkProject {
  project_id : Z;
  project_name : string;
  project_networks : list Z;
  project_users : list Z
}.

(** A stored query: who built it and the selection it replays. *)
Record Query : Type := mkQuery {
  stored_query_id : Z;
  query_user : option Z;
  query_network_ids : list Z;
  query_seeding : list string;
  query_pipeline : list string
}.

Record DB : Type := mkDB {
  users : list User;
  reports : list Report;
  networks : list Network;
  experiments : list Experiment;
  projects : list Project;
  queries : list Query
}.

Record Session : Type := mkSession {
  pending : DB;
  persisted : DB;
  closed : bool
}.

Record Mail : Type := mkMail {
  subject : string;
  recipients : list string;
  body : string;
  sender : string * string;
  attachments : list (string * string * string)
}.

Record World : Type := mkWorld {
  session : Session;
  outbox : list Mail;
  files : list (string * list string);
  flashes : list (string * string);
  clock_reads : nat
}.

(** ** Tasks: state passing with exceptions *)

Definition Task (A : Type) : Type := World -> result A * World.

Definition ret {A} (a : A) : Task A := fun w => (Return a, w).

Definition raise {A} (e : exn) : Task A := fun w => (Raise e, w).

Definition bind {A B} (m : Task A) (k : A -> Task B) : Task B :=
  fun w =>
    match m w with
    | (Return a, w') => k a w'
    | (Raise e, w') => (Raise e, w')
    end.

Notation "'let*' x ':=' m 'in' k" := (bind m (fun x => k))
  (at level 10, x pattern, m at level 100, k at level 200).
Notation "m ';;;' k" := (bind m (fun _ => k))
  (at level 100, k at level 200, right associativity).

(** [try: m except E as e: h e]; a handler that does not take the exception
    re-raises it. *)
Definition try_except {A} (m : Task A) (h : exn -> Task A) : Task A :=
  fun w =>
    match m w with
    | (Return a, w') => (Return a, w')
    | (Raise e, w') => h e w'
    end.

(** [try: m finally: f]: [f] runs on both ways out. *)
Definition try_finally {A} (m : Task A) (f : Task unit) : Task A :=
  fun w =>
    match m w with
    | (r, w') =>
        match f w' with
        | (Return _, w'') => (r, w'')
        | (Raise e, w'') => (Raise e, w'')
        end
    end.

Definition modify (f : World -> World) : Task unit := fun w => (Return tt, f w).

Definition set_session (s : Session) (w : World) : World :=
  {| session := s; outbox := outbox w; files := files w;
     flashes := flashes w; clock_reads := clock_reads w |}.

Definition map_pending (f : DB -> DB) (w : World) : World :=
  set_session {| pending := f (pending (session w));
                 persisted := persisted (session w);
                 closed := closed (session w) |} w.

(** [manager.session.commit()], [.rollback()] and [.close()]. *)
Definition commit : Task unit :=
  modify (fun w => set_session {| pending := pending (session w);
                                  persisted := pending (session w);
                                  closed := closed (session w) |} w).

Definition rollback : Task unit :=
  modify (fun w => set_session {| pending := persisted (session w);
                                  persisted := persisted (session w);
                                  closed := closed (session w) |} w).

Definition close : Task unit :=
  modify (fun w => set_session {| pending := pending (session w);
                                  persisted := persisted (session w);
                                  closed := true |} w).

Definition send (m : Mail) : Task unit :=
  modify (fun w => {| session := session w; outbox := outbox w ++ [m];
                      files := files w; flashes := flashes w;
                      clock_reads := clock_reads w |}).

Definition write_file (path : string) (lines : list string) : Task unit :=
  modify (fun w => {| session := session w; outbox := outbox w;
                      files := files w ++ [(path, lines)];
                      flashes := flashes w;
                      clock_reads := clock_reads w |}).

(** [flash(message, category=...)] *)
Definition flash (message category : string) : Task unit :=
  modify (fun w => {| session := session w; outbox := outbox w;
                      files := files w;
                      flashes := flashes w ++ [(message, category)];
                      clock_reads := clock_reads w |}).

(** ** celery_worker.py *)

(** What the worker calls outside this repository, and the application
    object.  [to_bytes] is applied by the source to a graph and to a stored
    network, so it takes either. *)
Inductive PyObj : Type :=
| ObjGraph (g : Graph)
| ObjNetwork (n : Network).

Definition mutator : Type := Graph -> Graph * option exn.

(** A pandas frame: the labels of its columns and its rows in order.  A row
    has a cell under every label; a null cell is [None]. *)
Record DataFrame : Type := mkDataFrame {
  frame_columns : list string;
  frame_rows : list (string -> option string)
}.

Definition Scores : Type := list (string * string).

Record Externals : Type := mkExternals {
  (* 'mail' in app.extensions *)
  app_mail : bool;
  (* app.config.get('PYBEL_USE_EDGE_STORE') *)
  PYBEL_USE_EDGE_STORE : option bool;
  PYBEL_DATA_DIR : string;
  (* the n-th reading of time.time() *)
  time_time : nat -> Z;
  uuid4 : string;
  (* report.parse_graph(manager=manager) *)
  parse_graph : Report -> result Graph;
  to_bytes : PyObj -> bytes;
  sha1_hexdigest : bytes -> string;
  add_canonical_names : mutator;
  add_identifiers : mutator;
  infer_central_dogma : mutator;
  enrich_pubmed_citations : mutator;
  (* manager.insert_graph(graph, store_parts=...) on the current store *)
  insert_graph : Graph -> bool -> DB -> result Network;
  make_graph_summary : Graph -> Summary;
  fill_out_report : Network -> Report -> Summary -> result Report;
  (* the commit that follows fill_out_report, and the one of run_cmpa *)
  commit_outcome : DB -> option exn;
  str_graph : Graph -> string;
  str_network : Network -> string;
  str_user : User -> string;
  repr_dict : list (string * string) -> string;
  (* network.as_bel(), union, to_bel_lines *)
  as_bel : Network -> Graph;
  union : list Graph -> Graph;
  to_bel_lines : Graph -> list string;
  (* experiment.query.run(manager), pickle and the scoring routine *)
  query_run : Query -> DB -> Graph;
  loads : bytes -> DataFrame;
  calculate_scores : Graph -> gmap string (option string) -> Z -> Scores;
  dumps : Scores -> bytes;
  (* os.path.join *)
  path_join : string -> string -> string
}.

(** pybel.constants *)
Definition METADATA_DESCRIPTION : string := "description".
Definition METADATA_CONTACT : string := "contact".
Definition METADATA_LICENSES : string := "licenses".

Definition dumb_belief_stuff : gmap string (gset string) :=
  <[METADATA_DESCRIPTION := {["Document description"]}]>
  (<[METADATA_CONTACT := {["your@email.com"]}]>
  (<[METADATA_LICENSES := {["Document license"]}]> ∅)).

Definition pbw_sender : string * string := ("PyBEL Web", "pybel@scai.fraunhofer.de").

(** constants.py *)
Definition CHARLIE_EMAIL : string := "charles.hoyt@scai.fraunhofer.de".
Definition DANIEL_EMAIL : string := "daniel.domingo.fernandez@scai.fraunhofer.de".
Definition ALEX_EMAIL : string := "aliaksandr.masny@scai.fraunhofer.de".

Definition integrity_message (n v : string) : string :=
  "A graph with the same name (" +:+ n +:+ ") and version (" +:+ v +:+
  ") already exists. If there have been changes since the last version, try bumping the version number.".

Definition dquote : string := String "034"%char EmptyString.

(** *** Rows of the session *)

Definition set_message (b : string) (r : Report) : Report :=
  {| report_id := report_id r; report_user := report_user r;
     source_name := source_name r; infer_origin := infer_origin r;
     public := public r; message := Some b; time := time r;
     report_network_id := report_network_id r;
     calculations := calculations r |}.

Definition set_time (t : Z) (r : Report) : Report :=
  {| report_id := report_id r; report_user := report_user r;
     source_name := source_name r; infer_origin := infer_origin r;
     public := public r; message := message r; time := Some t;
     report_network_id := report_network_id r;
     calculations := calculations r |}.

Definition with_reports (f : list Report -> list Report) (db : DB) : DB :=
  {| users := users db; reports := f (reports db); networks := networks db;
     experiments := experiments db; projects := projects db;
     queries := queries db |}.

Definition with_networks (f : list Network -> list Network) (db : DB) : DB :=
  {| users := users db; reports := reports db; networks := f (networks db);
     experiments := experiments db; projects := projects db;
     queries := queries db |}.

Definition with_experiments (f : list Experiment -> list Experiment) (db : DB) : DB :=
  {| users := users db; reports := reports db; networks := networks db;
     experiments := f (experiments db); projects := projects db;
     queries := queries db |}.

Definition with_queries (f : list Query -> list Query) (db : DB) : DB :=
  {| users := users db; reports := reports db; networks := networks db;
     experiments := experiments db; projects := projects db;
     queries := f (queries db) |}.

(** Writing an attribute of the row whose key is [i]. *)
Definition update_report (i : Z) (f : Report -> Report) : DB -> DB :=
  with_reports (map (fun r => if report_id r =? i then f r else r)).

Definition update_network (i : Z) (f : Network -> Network) : DB -> DB :=
  with_networks (map (fun n => if network_id n =? i then f n else n)).

Definition update_experiment (i : Z) (f : Experiment -> Experiment) : DB -> DB :=
  with_experiments (map (fun x => if experiment_id x =? i then f x else x)).

(** [session.query(Report).get(i)] and its siblings. *)
Definition get_report (i : Z) (db : DB) : option Report :=
  find (fun r => report_id r =? i) (reports db).

Definition get_user (i : Z) (db : DB) : option User :=
  find (fun u => user_id u =? i) (users db).

Definition get_project (i : Z) (db : DB) : option Project :=
  find (fun p => project_id p =? i) (projects db).

Definition get_experiment (i : Z) (db : DB) : option Experiment :=
  find (fun x => experiment_id x =? i) (experiments db).

Definition get_network_by_id (i : Z) (db : DB) : option Network :=
  find (fun n => network_id n =? i) (networks db).

Definition get_query (i : Z) (db : DB) : option Query :=
  find (fun q => stored_query_id q =? i) (queries db).

(** [network.report]: the report whose network is this one, if any. *)
Definition network_report (n : Network) (db : DB) : option Report :=
  find (fun r => match report_network_id r with
                 | Some i => i =? network_id n
                 | None => false
                 end) (reports db).

(** [Query.one_or_none()] *)
Definition one_or_none {A} (rows : list A) : result (option A) :=
  match rows with
  | [] => Return None
  | [x] => Return (Some x)
  | _ => Raise MultipleResultsFound
  end.

Definition lift {A} (r : result A) : Task A := fun w => (r, w).

Definition time_now (clock : nat -> Z) : Task Z :=
  fun w => (Return (clock (clock_reads w)),
            {| session := session w; outbox := outbox w; files := files w;
               flashes := flashes w; clock_reads := S (clock_reads w) |}).

Definition current_db : Task DB := fun w => (Return (pending (session w)), w).

Section CeleryWorker.

Variable ext : Externals.

(** The closure [make_mail] of [async_parser]: nothing is sent when the
    application has no mail extension. *)
Definition make_mail (report : Report) (subject body : string) : Task unit :=
  if negb (app_mail ext) then ret tt
  else send {| subject := subject;
               recipients := [email (report_user report)];
               body := body;
               sender := pbw_sender;
               attachments := [] |}.

(** The closure [finish_parsing] of [async_parser]; [log_exception] only
    selects a log call. *)
Definition finish_parsing (report : Report) (subject body : string)
    (log_exception : bool) : Task pyval :=
  make_mail report subject body ;;;
  modify (map_pending (update_report (report_id report) (set_message body))) ;;;
  commit ;;;
  ret (PyStr body).

(** The dictionary comprehension [problem] (lines 201-205). *)
Definition problem (graph : Graph) : list (string * string) :=
  List.filter (fun kv : string * string =>
            match dumb_belief_stuff !! kv.1 with
            | Some defaults => bool_decide (kv.2 ∈ defaults)
            | None => false
            end) (document graph).

(** [app.extensions['mail'].send_message(...)] without the membership
    test of [make_mail]. *)
Definition send_message_unguarded (m : Mail) : Task unit :=
  if app_mail ext then send m else raise (KeyError "mail").

(** Lines 214-240: a network with this name and version is stored. *)
Definition existing_network (report : Report) (graph : Graph)
    (network : Network) : Task pyval :=
  let source_name := source_name report in
  let message := integrity_message (str_opt (name graph)) (str_opt (version graph)) in
  let* db := current_db in
  match network_report network db with
  | None => raise AttributeError
  | Some network_report =>
      if user_id (report_user network_report) =? user_id (report_user report)
      then finish_parsing report ("Uploading Failed for " +:+ source_name) message true
      else
        if negb (String.eqb (sha1_hexdigest ext (blob network))
                            (sha1_hexdigest ext (to_bytes ext (ObjNetwork network))))
        then
          send_message_unguarded
            {| subject := "Possible attempted Espionage";
               recipients := [CHARLIE_EMAIL; DANIEL_EMAIL];
               body := "The following user (" +:+ str_Z (user_id (report_user report))
                       +:+ " " +:+ email (report_user report)
                       +:+ ") may have attempted espionage of network: "
                       +:+ str_network ext network;
               sender := pbw_sender;
               attachments := [] |} ;;;
          finish_parsing report ("Upload Failed for " +:+ source_name) message true
        else
          modify (map_pending (update_network (network_id network)
            (fun n => {| network_id := network_id n;
                         network_name := network_name n;
                         network_version := network_version n;
                         blob := blob n;
                         network_users := network_users n ++ [report_user report] |}))) ;;;
          commit ;;;
          finish_parsing report ("Granted Rights from " +:+ source_name)
            ("Granted rights for " +:+ str_network ext network +:+ " to "
             +:+ str_user ext (report_user report) +:+ " after parsing " +:+ source_name)
            false
  end.

(** Lines 242-258: the mutators run in order until one raises; a database
    error rolls the session back, any other error is only logged. *)
Fixpoint run_mutators (ms : list mutator) (graph : Graph) : Graph * option exn :=
  match ms with
  | [] => (graph, None)
  | m :: ms' =>
      match m graph with
      | (graph', None) => run_mutators ms' graph'
      | (graph', Some e) => (graph', Some e)
      end
  end.

Definition enrich (report : Report) (graph : Graph) : Task Graph :=
  let steps : list mutator :=
    ([add_canonical_names ext; add_identifiers ext]
     ++ (if infer_origin report then [infer_central_dogma ext] else [])
     ++ [enrich_pubmed_citations ext])%list in
  match run_mutators steps graph with
  | (graph', None) => ret graph'
  | (graph', Some IntegrityError) => rollback ;;; ret graph'
  | (graph', Some OperationalError) => rollback ;;; ret graph'
  | (graph', Some _) => ret graph'
  end.

(** The commit under a [try]. *)
Definition guarded_commit : Task unit :=
  let* db := current_db in
  match commit_outcome ext db with
  | None => commit
  | Some e => raise e
  end.

(** Lines 281-305: the report of a stored network. *)
Definition make_report (t : Z) (report : Report) (graph : Graph)
    (network : Network) : Task pyval :=
  let source_name := source_name report in
  let graph_summary := make_graph_summary ext graph in
  try_finally
    (try_except
       (let* filled := lift (fill_out_report ext network report graph_summary) in
        let* t' := time_now (time_time ext) in
        modify (map_pending (update_report (report_id report)
                               (fun _ => set_time (t' - t) filled))) ;;;
        guarded_commit ;;;
        make_mail filled
          ("Successfully uploaded " +:+ source_name +:+ " (" +:+ str_graph ext graph +:+ ")")
          (source_name +:+ " (" +:+ str_graph ext graph
           +:+ ") is done parsing. Check the network list page.") ;;;
        ret (PyInt (network_id network)))
       (fun e =>
          rollback ;;;
          make_mail report ("Report unsuccessful for " +:+ source_name) (str_exn e) ;;;
          ret (PyInt (-1))))
    close.

(** Lines 260-279: [manager.insert_graph]; the inserted row joins the store
    and is committed by the manager. *)
Definition store_graph (report : Report) (graph : Graph) : Task (Network + pyval) :=
  let upload_failed_text := "Upload Failed for " +:+ source_name report in
  let* db := current_db in
  match insert_graph ext graph (default true (PYBEL_USE_EDGE_STORE ext)) db with
  | Return network =>
      modify (map_pending (with_networks (fun ns => ns ++ [network]))) ;;;
      commit ;;;
      ret (inl network)
  | Raise IntegrityError =>
      rollback ;;;
      let* v := finish_parsing report upload_failed_text
                  (integrity_message (str_opt (name graph)) (str_opt (version graph))) true in
      ret (inr v)
  | Raise OperationalError =>
      rollback ;;;
      let* v := finish_parsing report upload_failed_text
                  "Database is locked. Unable to upload." true in
      ret (inr v)
  | Raise e =>
      rollback ;;;
      let* v := finish_parsing report upload_failed_text
                  ("Error storing in database: " +:+ str_exn e) true in
      ret (inr v)
  end.

(** The message of each handler of the parsing [try] (lines 180-191). *)
Definition parse_failure_message (source_name : string) (e : exn) : string :=
  match e with
  | ConnectionError => "Connection to resource could not be established."
  | InconsistentDefinitionError definition line_number =>
      "Parsing failed for " +:+ source_name +:+ " because " +:+ definition
      +:+ " was redefined on line " +:+ str_Z line_number +:+ "."
  | e => "Parsing failed for " +:+ source_name +:+ " from a general error: " +:+ str_exn e
  end.

Definition async_parser (report_id : Z) : Task pyval :=
  let* t := time_now (time_time ext) in
  let* db := current_db in
  match get_report report_id db with
  | None => raise (ValueError ("Report " +:+ str_Z report_id +:+ " not found"))
  | Some report =>
      let source_name := source_name report in
      match parse_graph ext report with
      | Raise e =>
          finish_parsing report ("Parsing Failed for " +:+ source_name)
            (parse_failure_message source_name e) true
      | Return graph =>
          if negb (truthy (name graph)) then
            finish_parsing report ("Parsing Failed for " +:+ source_name)
              ("Parsing failed for " +:+ source_name
               +:+ " because SET DOCUMENT Name was missing.") true
          else if negb (truthy (version graph)) then
            finish_parsing report ("Parsing Failed for " +:+ source_name)
              ("Parsing failed for " +:+ source_name
               +:+ " because SET DOCUMENT Version was missing.") true
          else
            match problem graph with
            | _ :: _ =>
                finish_parsing report ("Rejected " +:+ source_name)
                  (source_name +:+ " was rejected because it has " +:+ dquote
                   +:+ "default" +:+ dquote +:+ " metadata: "
                   +:+ repr_dict ext (problem graph)) true
            | [] =>
                let* found :=
                  lift (one_or_none
                    (List.filter (fun n : Network =>
                               String.eqb (network_name n) (str_opt (name graph))
                               && String.eqb (network_version n) (str_opt (version graph)))
                            (networks db))) in
                match found with
                | Some network => existing_network report graph network
                | None =>
                    let* graph := enrich report graph in
                    let* stored := store_graph report graph in
                    match stored with
                    | inr v => ret v
                    | inl network => make_report t report graph network
                    end
                end
            end
      end
  end.

(** *** merge_project *)

Definition set_name_version (n v : string) (g : Graph) : Graph :=
  {| name := Some n; version := Some v; document := document g; content := content g |}.

Definition newline : string := String "010"%char EmptyString.

(** [project.networks]: the rows behind the project's network keys. *)
Definition networks_of (project : Project) (db : DB) : list Network :=
  omap (fun i => get_network_by_id i db) (project_networks project).

Definition merge_project (user_id project_id : Z) : Task pyval :=
  let* t := time_now (time_time ext) in
  let* db := current_db in
  let user := get_user user_id db in
  match get_project project_id db with
  | None => raise AttributeError
  | Some project =>
      let graphs := map (as_bel ext) (networks_of project db) in
      let graph := union ext graphs in
      let graph := set_name_version (uuid4 ext) "1.0.0" graph in
      if negb (app_mail ext) then
        let path := path_join ext (PYBEL_DATA_DIR ext) (str_opt (name graph) +:+ ".bel") in
        write_file path (to_bel_lines ext graph) ;;;
        let* _ := time_now (time_time ext) in
        ret PyNone
      else
        let lines := to_bel_lines ext graph in
        let s := String.concat newline lines in
        let* _ := time_now (time_time ext) in
        match user with
        | None => raise AttributeError
        | Some user =>
            send {| subject := "Merged " +:+ project_name project +:+ " BEL";
                    recipients := [email user];
                    body := "The BEL documents from " +:+ project_name project
                            +:+ " were merged. The resulting BEL script is attached";
                    sender := pbw_sender;
                    attachments := [("merged.bel", "text/plain", s)] |} ;;;
            ret (PyInt 1)
        end
  end.

(** *** run_cmpa *)

(** [df.loc[df[gene_column].notnull(), [gene_column, data_column]]
    .itertuples()]: [df[gene_column]] raises [KeyError] for a label that is
    no column of the frame, whatever its rows, and so does [.loc] for the
    data label (pandas 1.0 and later; earlier versions warn and fill the
    column with nulls).  The rows whose gene cell is not null follow in row
    order, each as its gene and its value. *)
Definition gene_data (gene_column data_column : string) (df : DataFrame)
    : result (list (string * option string)) :=
  if negb (bool_decide (gene_column ∈ frame_columns df))
  then Raise (KeyError gene_column)
  else if negb (bool_decide (data_column ∈ frame_columns df))
  then Raise (KeyError data_column)
  else Return (omap (fun row : string -> option string =>
                       match row gene_column with
                       | Some k => Some (k, row data_column)
                       | None => None
                       end) (frame_rows df)).

(** A dictionary comprehension keeps the last value of a repeated key. *)
Definition dict_of (kvs : list (string * option string)) : gmap string (option string) :=
  foldl (fun m kv => <[kv.1 := kv.2]> m) ∅ kvs.

Definition set_result (r : bytes) (x : Experiment) : Experiment :=
  {| experiment_id := experiment_id x; experiment_user := experiment_user x;
     query_id := query_id x; source := source x;
     experiment_source_name := experiment_source_name x;
     gene_column := gene_column x; data_column := data_column x;
     permutations := permutations x;
     experiment_result := Some r; completed := true |}.

Definition run_cmpa (experiment_id : Z) : Task pyval :=
  let* db := current_db in
  match get_experiment experiment_id db with
  | None => raise AttributeError
  | Some experiment =>
      match get_query (query_id experiment) db with
      | None => raise AttributeError
      | Some query =>
      let graph := query_run ext query db in
      let df := loads ext (source experiment) in
      let* pairs := lift (gene_data (gene_column experiment) (data_column experiment) df) in
      let data := dict_of pairs in
      let scores := calculate_scores ext graph data (permutations experiment) in
      modify (map_pending (update_experiment experiment_id
                             (set_result (dumps ext scores)))) ;;;
      let* committed :=
        try_finally
          (try_except (guarded_commit ;;; ret true)
                      (fun _ => rollback ;;; ret false))
          close in
      if negb committed then ret (PyInt (-1))
      else
        let message :=
          "Experiment " +:+ str_Z experiment_id +:+ " on query "
          +:+ str_Z (query_id experiment) +:+ " with "
          +:+ experiment_source_name experiment +:+ " has completed" in
        (if app_mail ext then
           send {| subject := "CMPA Analysis complete";
                   recipients := [email (experiment_user experiment)];
                   body := message;
                   sender := pbw_sender;
                   attachments := [] |}
         else ret tt) ;;;
        ret (PyInt experiment_id)
      end
  end.

End CeleryWorker.

(** ** The web application *)

(** [flask_security.current_user]: the anonymous user or a stored one. *)
Inductive CurrentUser : Type :=
| AnonymousUser
| LoggedIn (u : User).

Definition is_authenticated (cu : CurrentUser) : bool :=
  match cu with
  | AnonymousUser => false
  | LoggedIn _ => true
  end.

(** The target of a redirect: [url_for] or [url_for_security] of an
    endpoint with keyword arguments. *)
Inductive Url : Type :=
| url_for (endpoint : string) (values : list (string * string))
| url_for_security (endpoint : string) (values : list (string * string)).

Definition OverlapData : Type := list (string * Z).

Inductive Response : Type :=
| Redirect (location : Url)
| Forbidden
| ModelList (model : string) (excluded : list string)
| ProjectList (rows : list Project)
| NetworkSummary (network_id : Z) (graph : Graph)
| QueryComparison (query_1_id query_2_id : Z) (data : OverlapData).

(** *** Flask-Admin model views

    A view class is the record of the methods and attributes that the
    sources override; a subclass copies its parent and replaces what it
    defines.  [ModelViewBase] is Flask-Admin's own class: every requester
    is let in and a refused one gets the 403 page. *)
Record ViewClass : Type := mkView {
  is_accessible : CurrentUser -> bool;
  inaccessible_callback : string -> string -> Response;
  column_exclude_list : list string;
  get_query_rows : CurrentUser -> list Project -> list Project
}.

Definition ModelViewBase : ViewClass :=
  {| is_accessible := fun _ => true;
     inaccessible_callback := fun _ _ => Forbidden;
     column_exclude_list := [];
     get_query_rows := fun _ rows => rows |}.

Definition with_exclude (l : list string) (c : ViewClass) : ViewClass :=
  {| is_accessible := is_accessible c;
     inaccessible_callback := inaccessible_callback c;
     column_exclude_list := l;
     get_query_rows := get_query_rows c |}.

(** A registered view: [admin.add_view(cls(model, manager.session))]. *)
Record View : Type := mkRegistered {
  view_class : ViewClass;
  view_model : string
}.

(** Flask-Admin's dispatch of a request to a view: the access predicate is
    asked first, and the callback answers for a refused requester. *)
Definition handle_view (v : View) (cu : CurrentUser) (db : DB)
    (name request_url : string) : Response :=
  if is_accessible (view_class v) cu then
    if String.eqb (view_model v) "Project"
    then ProjectList (get_query_rows (view_class v) cu (projects db))
    else ModelList (view_model v) (column_exclude_list (view_class v))
  else inaccessible_callback (view_class v) name request_url.

Module admin_utils.

(** [current_user.is_authenticated and current_user.is_admin]: the second
    attribute is read only of an authenticated user. *)
Definition ModelView : ViewClass :=
  {| is_accessible := fun cu =>
       match cu with
       | AnonymousUser => false
       | LoggedIn u => is_admin u
       end;
     inaccessible_callback := fun name request_url =>
       Redirect (url_for_security "login" [("next", request_url)]);
     column_exclude_list := [];
     get_query_rows := get_query_rows ModelViewBase |}.

Definition NetworkView : ViewClass :=
  with_exclude ["blob"; "sha512"; "authors"; "description"; "copyright";
                "disclaimer"; "licenses"] ModelView.
Definition ReportView : ViewClass := with_exclude ["source"; "calculations"] ModelView.
Definition NodeView : ViewClass := with_exclude ["blob"; "sha512"] ModelView.
Definition EdgeView : ViewClass := with_exclude ["blob"; "sha512"] ModelView.
Definition CitationView : ViewClass := with_exclude ["blob"; "sha512"] ModelView.
Definition EvidenceView : ViewClass := with_exclude ["blob"; "sha512"] ModelView.
Definition ExperimentView : ViewClass := with_exclude ["source"; "result"] ModelView.
Definition UserView : ViewClass := with_exclude ["password"] ModelView.

End admin_utils.

Module admin_service.

Definition ModelView : ViewClass :=
  {| is_accessible := fun cu =>
       match cu with
       | AnonymousUser => false
       | LoggedIn u => admin u
       end;
     inaccessible_callback := fun name request_url =>
       Redirect (url_for "login" [("next", request_url)]);
     column_exclude_list := [];
     get_query_rows := get_query_rows ModelViewBase |}.

Definition NetworkView : ViewClass := with_exclude ["blob"] ModelView.
Definition UserView : ViewClass := with_exclude ["password"] ModelView.

(** [current_user.projects] of the anonymous user is not defined by the
    sources at hand; it is taken to be empty. *)
Definition current_projects (cu : CurrentUser) : list Z :=
  match cu with
  | AnonymousUser => []
  | LoggedIn u => user_projects u
  end.

(** The local class [ProjectView(ModelViewBase)]: only [get_query] is
    overridden. *)
Definition ProjectView : ViewClass :=
  {| is_accessible := is_accessible ModelViewBase;
     inaccessible_callback := inaccessible_callback ModelViewBase;
     column_exclude_list := column_exclude_list ModelViewBase;
     get_query_rows := fun cu rows =>
       List.filter (fun p => bool_decide (project_id p ∈ current_projects cu))
                   (get_query_rows ModelViewBase cu rows) |}.

Definition build_admin_service : list View :=
  [ mkRegistered UserView "User";
    mkRegistered ModelView "Role";
    mkRegistered ModelView "Namespace";
    mkRegistered ModelView "Annotation";
    mkRegistered NetworkView "Network";
    mkRegistered ModelView "Report";
    mkRegistered ModelView "Experiment";
    mkRegistered ModelView "Query";
    mkRegistered ModelView "Assembly";
    mkRegistered ProjectView "Project" ].

End admin_service.

Module application_utils.

Import admin_utils.

(** The class returned by [build_project_view]. *)
Definition ProjectView : ViewClass :=
  {| is_accessible := is_authenticated;
     inaccessible_callback := fun name request_url =>
       Redirect (url_for_security "login" [("next", request_url)]);
     column_exclude_list := column_exclude_list ModelViewBase;
     get_query_rows := fun cu rows =>
       let parent_query := get_query_rows ModelViewBase cu rows in
       match cu with
       | AnonymousUser => parent_query
       | LoggedIn u =>
           if is_admin u then parent_query
           else
             let current_projects : gset Z := list_to_set (user_projects u) in
             List.filter (fun p => bool_decide (project_id p ∈ current_projects))
                         parent_query
       end |}.

(** [FlaskPyBEL._build_admin_service] *)
Definition _build_admin_service : list View :=
  [ mkRegistered UserView "User";
    mkRegistered ModelView "Role";
    mkRegistered ModelView "Namespace";
    mkRegistered ModelView "Annotation";
    mkRegistered NetworkView "Network";
    mkRegistered NodeView "Node";
    mkRegistered EdgeView "Edge";
    mkRegistered CitationView "Citation";
    mkRegistered EvidenceView "Evidence";
    mkRegistered ModelView "Author";
    mkRegistered ReportView "Report";
    mkRegistered ExperimentView "Experiment";
    mkRegistered ModelView "Query";
    mkRegistered ModelView "Assembly";
    mkRegistered ModelView "EdgeVote";
    mkRegistered ModelView "EdgeComment";
    mkRegistered ProjectView "Project" ].

End application_utils.

(** *** What the routes and the loader call outside the sources at hand

    [utils.py] and [models.py] of the package, the pybel manager and
    pybel_tools are not among the sources; the functions taken from them
    are fields of this record. *)
Definition Form : Type := list (string * string).

Record WebExternals : Type := mkWebExternals {
  (* User.get_owned_networks(), User.get_shared_networks() *)
  get_owned_networks : User -> DB -> list Network;
  get_shared_networks : User -> DB -> list Network;
  (* manager.list_recent_networks() *)
  list_recent_networks : DB -> list Network;
  (* user_datastore.find_or_create_role(name='scai').users *)
  scai_role_users : DB -> list User;
  (* Network.name.ilike('%term%') *)
  ilike : string -> string -> bool;
  (* utils.get_network_ids_with_permission_helper(current_user, manager) *)
  get_network_ids_with_permission_helper : CurrentUser -> DB -> gset Z;
  (* models.Query.from_query_args(manager, network_id, current_user) *)
  from_query_args : DB -> Z -> CurrentUser -> Query;
  (* models.Query.from_query(manager, Query.from_json(query_form_to_dict(form)), current_user) *)
  query_form_to_dict : Form -> list (string * string);
  from_json : list (string * string) -> list Z * list string * list string;
  from_query : DB -> list Z * list string * list string -> CurrentUser -> Query;
  (* utils.safe_get_query(query_id) *)
  safe_get_query : CurrentUser -> Z -> DB -> result Query;
  (* query.run(manager) *)
  run : Query -> DB -> Graph;
  calculate_overlap_dict : Graph -> string -> Graph -> string -> OverlapData;
  (* pybel.from_bytes(blob, check_version=...) *)
  from_bytes : bytes -> option bool -> result Graph;
  PYBEL_DS_CHECK_VERSION : option bool;
  str_type : exn -> string
}.

(** The key the store gives to a row added without one. *)
Definition next_query_id (db : DB) : Z :=
  1 + foldr Z.max 0 (map stored_query_id (queries db)).

Definition set_query_id (i : Z) (q : Query) : Query :=
  {| stored_query_id := i; query_user := query_user q;
     query_network_ids := query_network_ids q;
     query_seeding := query_seeding q; query_pipeline := query_pipeline q |}.

(** [manager.session.add(query)] followed by [commit()]: the row receives
    its key and is stored; the key is handed back as [query.id]. *)
Definition add_query (q : Query) : Task Z :=
  let* db := current_db in
  let i := next_query_id db in
  modify (map_pending (with_queries (fun qs => qs ++ [set_query_id i q]))) ;;;
  commit ;;;
  ret i.

(** [abort(code, description)] *)
Definition abort {A} (code : Z) (description : string) : Task A :=
  raise (HTTPException code description).

Section Web.

Variable web : WebExternals.
Variable current_user : CurrentUser.

(** *** application_utils.py: the network loader of the project view *)

Definition iter_public_networks (db : DB) : list Network :=
  List.filter (fun network =>
                 match network_report network db with
                 | Some report => public report
                 | None => false
                 end) (list_recent_networks web db).

(** A [session.query(Network)] under construction: its filters, offset and
    limit; [all] runs it. *)
Record NetworkQuery : Type := mkNetworkQuery {
  criteria : list (Network -> bool);
  query_offset : nat;
  query_limit : nat
}.

Definition all (q : NetworkQuery) (db : DB) : list Network :=
  firstn (query_limit q)
    (skipn (query_offset q)
       (List.filter (fun n => forallb (fun c => c n) (criteria q)) (networks db))).

(** [allowed_network_ids] (lines 92-108), for a user who is not an admin. *)
Definition allowed_network_ids (user : User) (db : DB) : gset Z :=
  let network_chain :=
    (get_owned_networks web user db
     ++ get_shared_networks web user db
     ++ iter_public_networks db)%list in
  let allowed : gset Z := list_to_set (map network_id network_chain) in
  if is_scai user then
    foldl (fun acc u =>
             foldl (fun acc' network => acc' ∪ {[network_id network]})
                   acc (get_owned_networks web u db))
          allowed (scai_role_users web db)
  else allowed.

(** [NetworkAjaxModelLoader.get_list] up to its last line: the query it
    would run, or [None] where it returns the empty list at once. *)
Definition get_list_query (user : User) (db : DB) (term : string)
    (offset limit : nat) : option NetworkQuery :=
  let by_term := fun n : Network => ilike web (network_name n) term in
  if negb (is_admin user) then
    let allowed := allowed_network_ids user db in
    if bool_decide (allowed = ∅) then None
    else Some {| criteria := [by_term; fun n => bool_decide (network_id n ∈ allowed)];
                 query_offset := offset; query_limit := limit |}
  else Some {| criteria := [by_term]; query_offset := offset; query_limit := limit |}.

Definition get_list (user : User) (db : DB) (term : string)
    (offset limit : nat) : list Network :=
  match get_list_query user db term offset limit with
  | None => []
  | Some query => all query db
  end.

(** *** main_service.py *)

Definition get_pipeline (form : Form) : Task Response :=
  let* db := current_db in
  let d := query_form_to_dict web form in
  let q := from_json web d in
  let query := from_query web db q current_user in
  let* i := add_query query in
  ret (Redirect (url_for "view_explorer_query" [("query_id", str_Z i)])).

Definition view_explore_network (network_id : Z) : Task Response :=
  let* db := current_db in
  if negb (bool_decide (network_id ∈ get_network_ids_with_permission_helper web current_user db))
  then abort 403 ("Insufficient rights for network " +:+ str_Z network_id)
  else
    let query := from_query_args web db network_id current_user in
    let* i := add_query query in
    ret (Redirect (url_for "view_explorer_query" [("query_id", str_Z i)])).

Definition view_summary (network_id : Z) : Task Response :=
  let* db := current_db in
  if negb (bool_decide (network_id ∈ get_network_ids_with_permission_helper web current_user db))
  then abort 403 ("Insufficient rights for network " +:+ str_Z network_id)
  else
    let loaded :=
      match get_network_by_id network_id db with
      | None => Raise AttributeError
      | Some network => from_bytes web (blob network) (PYBEL_DS_CHECK_VERSION web)
      end in
    match loaded with
    | Raise e =>
        flash ("Problem getting graph " +:+ str_Z network_id +:+ ": ("
               +:+ str_type web e +:+ ") " +:+ str_exn e) "error" ;;;
        ret (Redirect (url_for "view_networks" []))
    | Return graph => ret (NetworkSummary network_id graph)
    end.

Definition view_query_comparison (query_1_id query_2_id : Z) : Task Response :=
  let* db := current_db in
  let* query_1 := lift (safe_get_query web current_user query_1_id db) in
  let* query_2 := lift (safe_get_query web current_user query_2_id db) in
  let query_1_result := run web query_1 db in
  let query_2_result := run web query_2 db in
  let data := calculate_overlap_dict web
                query_1_result ("Query " +:+ str_Z query_1_id)
                query_2_result ("Query " +:+ str_Z query_2_id) in
  ret (QueryComparison query_1_id query_2_id data).

End Web.

(** ** A small installation used to run the definitions *)

Module Sample.

Definition alice : User :=
  {| user_id := 1; email := "alice@example.org"; is_admin := false;
     admin := false; is_scai := false; user_projects := [1] |}.

Definition bob : User :=
  {| user_id := 2; email := "bob@example.org"; is_admin := false;
     admin := false; is_scai := true; user_projects := [] |}.

Definition root : User :=
  {| user_id := 3; email := CHARLIE_EMAIL; is_admin := true;
     admin := true; is_scai := true; user_projects := [] |}.

Definition new_report (i : Z) (u : User) (src : string) : Report :=
  {| report_id := i; report_user := u; source_name := src;
     infer_origin := true; public := false; message := None; time := None;
     report_network_id := None; calculations := None |}.

(** Alice's first upload: stored as network 1. *)
Definition first_report : Report :=
  {| report_id := 1; report_user := alice; source_name := "egf.bel";
     infer_origin := true; public := true; message := None; time := Some 5;
     report_network_id := Some 1; calculations := Some (mkSummary 2 1) |}.

Definition egf : Network :=
  {| network_id := 1; network_name := "EGF"; network_version := "1.0.0";
     blob := [1; 2; 3]; network_users := [] |}.

Definition stored_query : Query :=
  {| stored_query_id := 1; query_user := Some 1; query_network_ids := [1];
     query_seeding := []; query_pipeline := [] |}.

Definition trial : Experiment :=
  {| experiment_id := 1; experiment_user := alice; query_id := 1;
     source := [7]; experiment_source_name := "expression.csv";
     gene_column := "gene"; data_column := "fc"; permutations := 10;
     experiment_result := None; completed := false |}.

Definition store : DB :=
  {| users := [alice; bob; root];
     reports := [first_report; new_report 2 bob "copy.bel";
                 new_report 3 alice "tau.bel"; new_report 4 bob "bad.bel";
                 new_report 5 bob "draft.bel"];
     networks := [egf];
     experiments := [trial];
     projects := [mkProject 1 "Growth" [1] [1]];
     queries := [stored_query] |}.

Definition world : World :=
  {| session := {| pending := store; persisted := store; closed := false |};
     outbox := []; files := []; flashes := []; clock_reads := 0 |}.

(** The documents behind the reports: report 2 carries another document
    under the name and version of network 1, report 3 a new document,
    report 4 cannot be fetched, report 5 still has a template line. *)
Definition documents (r : Report) : result Graph :=
  if report_id r =? 2 then
    Return {| name := Some "EGF"; version := Some "1.0.0";
              document := [("name", "EGF"); ("version", "1.0.0")];
              content := [9; 9] |}
  else if report_id r =? 3 then
    Return {| name := Some "Tau"; version := Some "0.1.0";
              document := [("name", "Tau"); ("contact", "alice@example.org")];
              content := [4] |}
  else if report_id r =? 5 then
    Return {| name := Some "Draft"; version := Some "0.0.1";
              document := [("name", "Draft"); ("contact", "your@email.com")];
              content := [5] |}
  else Raise ConnectionError.

Definition label (n v : string) : string := n +:+ " v" +:+ v.

Definition hex (b : bytes) : string := String.concat "-" (map str_Z b).

Definition pass : mutator := fun g => (g, None).

(** A row of a frame with the columns [gene] and [fc]. *)
Definition cells (gene fc : option string) : string -> option string :=
  fun label =>
    if String.eqb label "gene" then gene
    else if String.eqb label "fc" then fc
    else None.

(** The frame of the experiments: EGFR is measured twice, and one row has
    no gene. *)
Definition expression : DataFrame :=
  {| frame_columns := ["gene"; "fc"];
     frame_rows := [cells (Some "EGFR") (Some "2.5");
                    cells None (Some "1.0");
                    cells (Some "TP53") None;
                    cells (Some "EGFR") (Some "3.5")] |}.

Definition ext (mail : bool) : Externals :=
  {| app_mail := mail;
     PYBEL_USE_EDGE_STORE := None;
     PYBEL_DATA_DIR := "/data";
     time_time := fun n => 100 + 10 * Z.of_nat n;
     uuid4 := "0f8fad5b-d9cb-469f-a165-70867728950e";
     parse_graph := documents;
     to_bytes := fun o => match o with
                          | ObjGraph g => content g
                          | ObjNetwork n => blob n
                          end;
     sha1_hexdigest := hex;
     add_canonical_names := pass;
     add_identifiers := pass;
     infer_central_dogma := pass;
     enrich_pubmed_citations := pass;
     insert_graph := fun g _ db =>
       Return {| network_id := 1 + foldr Z.max 0 (map network_id (networks db));
                 network_name := str_opt (name g);
                 network_version := str_opt (version g);
                 blob := content g; network_users := [] |};
     make_graph_summary := fun g => mkSummary (Z.of_nat (length (content g))) 0;
     fill_out_report := fun n r s =>
       Return {| report_id := report_id r; report_user := report_user r;
                 source_name := source_name r; infer_origin := infer_origin r;
                 public := public r; message := message r; time := time r;
                 report_network_id := Some (network_id n);
                 calculations := Some s |};
     commit_outcome := fun _ => None;
     str_graph := fun g => label (str_opt (name g)) (str_opt (version g));
     str_network := fun n => label (network_name n) (network_version n);
     str_user := email;
     repr_dict := fun kvs =>
       String.concat ", " (map (fun kv => kv.1 +:+ ": " +:+ kv.2) kvs);
     as_bel := fun n => {| name := Some (network_name n);
                           version := Some (network_version n);
                           document := []; content := blob n |};
     union := fun gs => {| name := None; version := None; document := [];
                           content := concat (map content gs) |};
     to_bel_lines := fun g => map str_Z (content g);
     query_run := fun q db =>
       {| name := None; version := None; document := [];
          content := query_network_ids q |};
     loads := fun _ => expression;
     calculate_scores := fun _ data _ =>
       map (fun kv => (kv.1, default "nan" kv.2)) (map_to_list data);
     dumps := fun scores => map (fun kv => Z.of_nat (String.length kv.1)) scores;
     path_join := fun a b => a +:+ "/" +:+ b |}.

(** The same installation with a locked database at the guarded commit. *)
Definition locked (e : Externals) : Externals :=
  {| app_mail := app_mail e; PYBEL_USE_EDGE_STORE := PYBEL_USE_EDGE_STORE e;
     PYBEL_DATA_DIR := PYBEL_DATA_DIR e; time_time := time_time e;
     uuid4 := uuid4 e; parse_graph := parse_graph e; to_bytes := to_bytes e;
     sha1_hexdigest := sha1_hexdigest e;
     add_canonical_names := add_canonical_names e;
     add_identifiers := add_identifiers e;
     infer_central_dogma := infer_central_dogma e;
     enrich_pubmed_citations := enrich_pubmed_citations e;
     insert_graph := insert_graph e; make_graph_summary := make_graph_summary e;
     fill_out_report := fill_out_report e;
     commit_outcome := fun _ => Some OperationalError;
     str_graph := str_graph e; str_network := str_network e;
     str_user := str_user e; repr_dict := repr_dict e; as_bel := as_bel e;
     union := union e; to_bel_lines := to_bel_lines e; query_run := query_run e;
     loads := loads e; calculate_scores := calculate_scores e;
     dumps := dumps e; path_join := path_join e |}.

Definition web : WebExternals :=
  {| get_owned_networks := fun u db =>
       List.filter (fun n => match network_report n db with
                             | Some r => user_id (report_user r) =? user_id u
                             | None => false
                             end) (networks db);
     get_shared_networks := fun u db =>
       List.filter (fun n => existsb (fun v => user_id v =? user_id u) (network_users n))
                   (networks db);
     list_recent_networks := networks;
     scai_role_users := fun db => List.filter is_scai (users db);
     ilike := fun field term => true;
     get_network_ids_with_permission_helper := fun cu db =>
       match cu with
       | AnonymousUser => ∅
       | LoggedIn u => if is_admin u then list_to_set (map network_id (networks db)) else ∅
       end;
     from_query_args := fun _ i cu =>
       {| stored_query_id := 0; query_user := None; query_network_ids := [i];
          query_seeding := []; query_pipeline := [] |};
     query_form_to_dict := fun form => form;
     from_json := fun d => ([1], map fst d, map snd d);
     from_query := fun _ q cu =>
       {| stored_query_id := 0;
          query_user := match cu with
                        | AnonymousUser => None
                        | LoggedIn u => Some (user_id u)
                        end;
          query_network_ids := q.1.1; query_seeding := q.1.2;
          query_pipeline := q.2 |};
     safe_get_query := fun _ i db =>
       match get_query i db with
       | Some q => Return q
       | None => Raise (HTTPException 404 "Missing query")
       end;
     run := fun q db =>
       {| name := None; version := None; document := [];
          content := query_network_ids q |};
     calculate_overlap_dict := fun g1 l1 g2 l2 =>
       [(l1, Z.of_nat (length (content g1))); (l2, Z.of_nat (length (content g2)))];
     from_bytes := fun b _ =>
       Return {| name := None; version := None; document := []; content := b |};
     PYBEL_DS_CHECK_VERSION := None;
     str_type := fun _ => "Exception" |}.

End Sample.

(** ** Statements used by the theorems *)

(** The three template values of a BEL document header. *)
Definition default_metadata (k v : string) : Prop :=
  (k = METADATA_DESCRIPTION /\ v = "Document description")
  \/ (k = METADATA_CONTACT /\ v = "your@email.com")
  \/ (k = METADATA_LICENSES /\ v = "Document license").

(** The installation [e] with another [manager.insert_graph]. *)
Definition set_insert_graph (ins : Graph -> bool -> DB -> result Network)
    (e : Externals) : Externals :=
  {| app_mail := app_mail e; PYBEL_USE_EDGE_STORE := PYBEL_USE_EDGE_STORE e;
     PYBEL_DATA_DIR := PYBEL_DATA_DIR e; time_time := time_time e;
     uuid4 := uuid4 e; parse_graph := parse_graph e; to_bytes := to_bytes e;
     sha1_hexdigest := sha1_hexdigest e;
     add_canonical_names := add_canonical_names e;
     add_identifiers := add_identifiers e;
     infer_central_dogma := infer_central_dogma e;
     enrich_pubmed_citations := enrich_pubmed_citations e;
     insert_graph := ins; make_graph_summary := make_graph_summary e;
     fill_out_report := fill_out_report e;
     commit_outcome := commit_outcome e;
     str_graph := str_graph e; str_network := str_network e;
     str_user := str_user e; repr_dict := repr_dict e; as_bel := as_bel e;
     union := union e; to_bel_lines := to_bel_lines e; query_run := query_run e;
     loads := loads e; calculate_scores := calculate_scores e;
     dumps := dumps e; path_join := path_join e |}.

(** The notification of [finish_parsing]. *)
Definition notification (report : Report) (subject body : string) : Mail :=
  {| subject := subject; recipients := [email (report_user report)];
     body := body; sender := pbw_sender; attachments := [] |}.

(** A session without uncommitted changes. *)
Definition clean (w : World) : Prop :=
  pending (session w) = persisted (session w).

(** The world after the first reading of the clock. *)
Definition tick (w : World) : World :=
  {| session := session w; outbox := outbox w; files := files w;
     flashes := flashes w; clock_reads := S (clock_reads w) |}.

(** Running a task symbolically: the monad and the session operations are
    unfolded and the records reduced. *)
Ltac run_task :=
  unfold bind, ret, raise, lift, modify, commit, rollback, close, send,
    current_db, time_now, try_except, try_finally, map_pending, set_session
    in *;
  simpl in *.

(** ** Further functions of the sources *)

(** *** celery_worker.py: parse_by_url *)

(** [pybel.from_url] and [manager.insert_graph(graph)] with the manager's
    default arguments. *)
Record Pybel : Type := mkPybel {
  from_url : string -> result Graph;
  insert_graph_default : Graph -> DB -> result Network
}.

Definition parse_by_url (pybel : Pybel) (url : string) : Task pyval :=
  match from_url pybel url with
  | Raise _ => ret (PyStr ("Parsing failed for " +:+ url +:+ ". "))
  | Return graph =>
      try_finally
        (try_except
           (let* db := current_db in
            let* network := lift (insert_graph_default pybel graph db) in
            modify (map_pending (with_networks (fun ns => ns ++ [network]))) ;;;
            commit ;;;
            ret (PyInt (network_id network)))
           (fun _ =>
              rollback ;;;
              ret (PyStr ("Inserting failed for " +:+ url))))
        close
  end.

(** *** celery_worker.py: what async_parser has checked at line 211 *)

(** The report is stored, its document parses, and the graph has a name, a
    version and no template value. *)
Definition accepted (ext : Externals) (i : Z) (w : World) (report : Report)
    (graph : Graph) : Prop :=
  get_report i (pending (session w)) = Some report
  /\ parse_graph ext report = Return graph
  /\ truthy (name graph) = true
  /\ truthy (version graph) = true
  /\ problem graph = [].

(** The rows selected by the filter of lines 211-212. *)
Definition same_name_version (graph : Graph) (db : DB) : list Network :=
  List.filter (fun n : Network =>
                 String.eqb (network_name n) (str_opt (name graph))
                 && String.eqb (network_version n) (str_opt (version graph)))
              (networks db).

(** The installation [e] with other mutators for lines 244-251. *)
Definition set_mutators (m1 m2 m3 m4 : mutator) (e : Externals) : Externals :=
  {| app_mail := app_mail e; PYBEL_USE_EDGE_STORE := PYBEL_USE_EDGE_STORE e;
     PYBEL_DATA_DIR := PYBEL_DATA_DIR e; time_time := time_time e;
     uuid4 := uuid4 e; parse_graph := parse_graph e; to_bytes := to_bytes e;
     sha1_hexdigest := sha1_hexdigest e;
     add_canonical_names := m1;
     add_identifiers := m2;
     infer_central_dogma := m3;
     enrich_pubmed_citations := m4;
     insert_graph := insert_graph e; make_graph_summary := make_graph_summary e;
     fill_out_report := fill_out_report e;
     commit_outcome := commit_outcome e;
     str_graph := str_graph e; str_network := str_network e;
     str_user := str_user e; repr_dict := repr_dict e; as_bel := as_bel e;
     union := union e; to_bel_lines := to_bel_lines e; query_run := query_run e;
     loads := loads e; calculate_scores := calculate_scores e;
     dumps := dumps e; path_join := path_join e |}.

(** The graph that reaches [manager.insert_graph]. *)
Definition enriched (ext : Externals) (report : Report) (graph : Graph) : Graph :=
  (run_mutators
     ([add_canonical_names ext; add_identifiers ext]
      ++ (if infer_origin report then [infer_central_dogma ext] else [])
      ++ [enrich_pubmed_citations ext])%list graph).1.

(** *** admin_service.py: the loader of the older admin service *)

Module admin_service_loader.

(** [NetworkAjaxModelLoader.get_list] of [build_admin_service]: a user who
    is not an admin is offered the networks that user owns. *)
Definition get_list (web : WebExternals) (user : User) (db : DB)
    (term : string) (offset limit : nat) : list Network :=
  let by_term := fun n : Network => ilike web (network_name n) term in
  let query :=
    if negb (admin user) then
      let owned := map network_id (get_owned_networks web user db) in
      {| criteria := [by_term; fun n => bool_decide (network_id n ∈ owned)];
         query_offset := offset; query_limit := limit |}
    else {| criteria := [by_term]; query_offset := offset; query_limit := limit |} in
  all query db.

End admin_service_loader.

(** *** main_service.py: the evidence pages *)

Record Evidence : Type := mkEvidence {
  text : string;
  (* evidence.citation.to_json() *)
  citation : string
}.

Record Node : Type := mkNode {
  node_hash : string;
  bel : string
}.

Record Edge : Type := mkEdge {
  edge_source : string;
  edge_target : string;
  evidence : option Evidence;
  (* relation.to_json()['data'] *)
  edge_data : string
}.

(** The context handed to [evidence_list.html]. *)
Record EvidenceList : Type := mkEvidenceList {
  data : gmap string (list string);
  ev2cit : gmap string string;
  source_bel : string;
  target_bel : option string
}.

(** One turn of the loop of [serve_relations]. *)
Definition collect (acc : gmap string (list string) * gmap string string)
    (relation : Edge) : gmap string (list string) * gmap string string :=
  match evidence relation with
  | None => acc
  | Some e =>
      (<[text e := (default [] (acc.1 !! text e) ++ [edge_data relation])%list]> acc.1,
       <[text e := citation e]> acc.2)
  end.

Definition serve_relations (relations : list Edge) (source : option Node)
    (target : option Node) : result EvidenceList :=
  let grouped := foldl collect (∅, ∅) relations in
  match source with
  | None => Raise AttributeError
  | Some source =>
      Return {| data := grouped.1; ev2cit := grouped.2;
                source_bel := bel source;
                target_bel := match target with
                              | Some target => Some (bel target)
                              | None => None
                              end |}
  end.

(** The relations that quote the evidence text [t]. *)
Definition quoting (t : string) (relation : Edge) : bool :=
  match evidence relation with
  | Some e => String.eqb (text e) t
  | None => false
  end.

(** The value of a [defaultdict(list)] key: absent while nothing was
    appended. *)
Definition appended {A} (l : list A) : option (list A) :=
  match l with
  | [] => None
  | _ => Some l
  end.

(** [manager.get_node_by_hash] and [manager.query_edges(source=, target=)];
    an argument left out of [query_edges] does not restrict the edges. *)
Record EdgeStore : Type := mkEdgeStore {
  get_node_by_hash : string -> option Node;
  query_edges : option Node -> option Node -> list Edge
}.

Definition view_relations (manager : EdgeStore) (request_args : list string)
    (source_id target_id : string) : result EvidenceList :=
  let source := get_node_by_hash manager source_id in
  let target := get_node_by_hash manager target_id in
  let relations := query_edges manager source target in
  let relations :=
    if bool_decide ("undirected" ∈ request_args)
    then (relations ++ query_edges manager target source)%list
    else relations in
  serve_relations relations source target.

Definition view_node (manager : EdgeStore) (node_id : string)
    : result EvidenceList :=
  let node := get_node_by_hash manager node_id in
  let relations := (query_edges manager node None
                    ++ query_edges manager None node)%list in
  serve_relations relations node None.

(** *** external_services.py: semantic_merge *)

(** The list comprehension of lines 47-50: the URLs are fetched in order and
    the first failure ends the request. *)
Fixpoint fetch_all (pybel : Pybel) (urls : list string) : result (list Graph) :=
  match urls with
  | [] => Return []
  | url :: urls' =>
      match from_url pybel url with
      | Raise e => Raise e
      | Return graph =>
          match fetch_all pybel urls' with
          | Raise e => Raise e
          | Return graphs => Return (graph :: graphs)
          end
      end
  end.

(** [request.get_json()] gives [None] for a body that is not JSON, and
    subscripting [None] raises [TypeError]; a JSON body is taken to be an
    object whose values are lists of strings, as the route documents it.
    [union] (pybel_tools) and [serve_network] (send_utils.py) are
    parameters that may raise. *)
Definition semantic_merge {R} (pybel : Pybel)
    (union : list Graph -> result Graph)
    (serve_network : Graph -> string -> result R)
    (request_json : option (gmap string (list string))) : result R :=
  match request_json with
  | None => Raise (GeneralError "'NoneType' object is not subscriptable")
  | Some request_json =>
      match request_json !! "urls" with
      | None => Raise (KeyError "urls")
      | Some urls =>
          match fetch_all pybel urls with
          | Raise e => Raise e
          | Return graphs =>
              match union graphs with
              | Raise e => Raise e
              | Return super_graph => serve_network super_graph "bel"
              end
          end
      end
  end.

(** *** main_service.py: build_summary_link_query *)

(** [manager.get_node_tuple_by_hash] and [Query.add_seed_induction] are
    parameters; [pybel_tools.query.Query([network_id])] is the query over
    that one network with no seeding and no pipeline. *)
Definition build_summary_link_query (web : WebExternals)
    (get_node_tuple_by_hash : string -> string)
    (add_seed_induction : list string -> list Z * list string * list string
                          -> list Z * list string * list string)
    (current_user : CurrentUser) (node_hashes : list string)
    (network_id : Z) : Task Response :=
  let* db := current_db in
  let nodes := map get_node_tuple_by_hash node_hashes in
  let q := add_seed_induction nodes ([network_id], [], []) in
  let query := from_query web db q current_user in
  let* i := add_query query in
  ret (Redirect (url_for "view_explorer_query" [("query_id", str_Z i)])).

(** The routes with another answer of
    [get_network_ids_with_permission_helper]. *)
Definition set_permission_helper (helper : CurrentUser -> DB -> gset Z)
    (web : WebExternals) : WebExternals :=
  {| get_owned_networks := get_owned_networks web;
     get_shared_networks := get_shared_networks web;
     list_recent_networks := list_recent_networks web;
     scai_role_users := scai_role_users web;
     ilike := ilike web;
     get_network_ids_with_permission_helper := helper;
     from_query_args := from_query_args web;
     query_form_to_dict := query_form_to_dict web;
     from_json := from_json web;
     from_query := from_query web;
     safe_get_query := safe_get_query web;
     run := run web;
     calculate_overlap_dict := calculate_overlap_dict web;
     from_bytes := from_bytes web;
     PYBEL_DS_CHECK_VERSION := PYBEL_DS_CHECK_VERSION web;
     str_type := str_type web |}.

(** *** application_utils.py: FlaskPyBEL._prepare_service

    The user datastore of Flask-Security holds accounts, found by email; a
    role is added to an account that does not have it yet. *)
Record Account : Type := mkAccount {
  account_email : string;
  account_password : string;
  confirmed_at : Z;
  account_roles : list string
}.

Record UserDatastore : Type := mkUserDatastore {
  accounts : list Account;
  committed_accounts : list Account
}.

Record FlaskPyBEL : Type := mkFlaskPyBEL {
  self_app : option string;
  self_manager : option string
}.

(** [user_datastore.find_user(email=email)] *)
Definition find_user (email : string) (l : list Account) : option Account :=
  List.find (fun a => String.eqb (account_email a) email) l.

(** [user_datastore.create_user(email=, password=, confirmed_at=)] *)
Definition create_user (email password : string) (confirmed : Z)
    (l : list Account) : list Account :=
  (l ++ [{| account_email := email; account_password := password;
            confirmed_at := confirmed; account_roles := [] |}])%list.

Fixpoint alter_first {A} (p : A -> bool) (f : A -> A) (l : list A) : list A :=
  match l with
  | [] => []
  | x :: l' => if p x then f x :: l' else x :: alter_first p f l'
  end.

Definition add_role (role : string) (a : Account) : Account :=
  if bool_decide (role ∈ account_roles a) then a
  else {| account_email := account_email a;
          account_password := account_password a;
          confirmed_at := confirmed_at a;
          account_roles := (account_roles a ++ [role])%list |}.

(** [user_datastore.add_role_to_user(user, role)] for the account found or
    created under [email]. *)
Definition add_role_to_user (email role : string) (l : list Account)
    : list Account :=
  alter_first (fun a => String.eqb (account_email a) email) (add_role role) l.

(** One turn of the loop of lines 295-307: the account is created when no
    account has the email, and given the two roles in either case. [now] is
    the reading of the clock when the account of an email is created. *)
Definition ensure_admin (now : string -> Z) (email : string)
    (l : list Account) : list Account :=
  let l := match find_user email l with
           | Some _ => l
           | None => create_user email "pybeladmin" (now email) l
           end in
  add_role_to_user email "scai" (add_role_to_user email "admin" l).

Definition TEST_EMAIL : string := "test@scai.fraunhofer.de".

(** Lines 309-318: the role is given inside the branch that creates the
    account. *)
Definition ensure_test_user (now : string -> Z) (l : list Account)
    : list Account :=
  match find_user TEST_EMAIL l with
  | Some _ => l
  | None =>
      add_role_to_user TEST_EMAIL "scai"
        (create_user TEST_EMAIL "pybeltest" (now TEST_EMAIL) l)
  end.

Definition _prepare_service (self : FlaskPyBEL) (now : string -> Z)
    (ds : UserDatastore) : result unit * UserDatastore :=
  match self_app self, self_manager self with
  | Some _, Some _ =>
      let l := foldl (fun l email => ensure_admin now email l)
                     (accounts ds) [CHARLIE_EMAIL; DANIEL_EMAIL; ALEX_EMAIL] in
      let l := ensure_test_user now l in
      (Return tt, {| accounts := l; committed_accounts := l |})
  | _, _ => (Raise (ValueError "not initialized"), ds)
  end.

(** An account with the email is stored and the first such has the role. *)
Definition has_role (email role : string) (l : list Account) : Prop :=
  exists a, find_user email l = Some a /\ In role (account_roles a).

(** The account [a'] is the account [a] with, possibly, more roles. *)
Definition kept_account (a a' : Account) : Prop :=
  account_email a' = account_email a
  /\ account_password a' = account_password a
  /\ confirmed_at a' = confirmed_at a
  /\ forall role, In role (account_roles a) -> In role (account_roles a').

(** Every account found in [l] is kept in [l']. *)
Definition accounts_kept (l l' : list Account) : Prop :=
  forall email a, find_user email l = Some a ->
  exists a', find_user email l' = Some a' /\ kept_account a a'.

(** *** More runs of the small installation *)

Module Cases.

(** A network stored through [parse_by_url]: no report belongs to it. *)
Definition orphan : Network :=
  {| network_id := 7; network_name := "Orphan"; network_version := "1.0";
     blob := [7]; network_users := [] |}.

(** Report 6 is Alice's second upload of her own network, report 8 Bob's
    upload under the name of the network without a report, report 9 Bob's
    upload of the very document that Alice's network was stored from. *)
Definition store : DB :=
  {| users := users Sample.store;
     reports := (reports Sample.store
                 ++ [Sample.new_report 6 Sample.alice "egf-again.bel";
                     Sample.new_report 8 Sample.bob "orphan.bel";
                     Sample.new_report 9 Sample.bob "egf.bel"])%list;
     networks := [Sample.egf; orphan];
     experiments := experiments Sample.store;
     projects := projects Sample.store;
     queries := queries Sample.store |}.

Definition world : World :=
  {| session := {| pending := store; persisted := store; closed := false |};
     outbox := []; files := []; flashes := []; clock_reads := 0 |}.


Definition egf_graph : Graph :=
  {| name := Some "EGF"; version := Some "1.0.0";
     document := [("name", "EGF"); ("version", "1.0.0")];
     content := [1; 2; 3] |}.

Definition orphan_graph : Graph :=
  {| name := Some "Orphan"; version := Some "1.0";
     document := [("name", "Orphan")]; content := [7] |}.

Definition documents (r : Report) : result Graph :=
  if report_id r =? 6 then Return egf_graph
  else if report_id r =? 8 then Return orphan_graph
  else if report_id r =? 9 then Return egf_graph
  else Sample.documents r.

(** The sample installation with these documents, with a [to_bytes] that
    pickles a stored row to something else than its blob when [pickled] is
    set, with the given outcome of [manager.insert_graph], and with a frame
    that has no column under the label [gene]. *)
Definition ext (mail pickled : bool) (failure : option exn) : Externals :=
  set_insert_graph
    (fun g b db =>
       match failure with
       | Some e => Raise e
       | None => insert_graph (Sample.ext mail) g b db
       end)
    {| app_mail := mail;
       PYBEL_USE_EDGE_STORE := None;
       PYBEL_DATA_DIR := PYBEL_DATA_DIR (Sample.ext mail);
       time_time := time_time (Sample.ext mail);
       uuid4 := uuid4 (Sample.ext mail);
       parse_graph := documents;
       to_bytes := fun o => match o with
                            | ObjGraph g => content g
                            | ObjNetwork n => if pickled then 0 :: blob n else blob n
                            end;
       sha1_hexdigest := Sample.hex;
       add_canonical_names := Sample.pass;
       add_identifiers := fun g => (g, Some (GeneralError "no identifiers"));
       infer_central_dogma := Sample.pass;
       enrich_pubmed_citations := Sample.pass;
       insert_graph := insert_graph (Sample.ext mail);
       make_graph_summary := make_graph_summary (Sample.ext mail);
       fill_out_report := fill_out_report (Sample.ext mail);
       commit_outcome := fun _ => None;
       str_graph := str_graph (Sample.ext mail);
       str_network := str_network (Sample.ext mail);
       str_user := email;
       repr_dict := repr_dict (Sample.ext mail);
       as_bel := as_bel (Sample.ext mail);
       union := union (Sample.ext mail);
       to_bel_lines := to_bel_lines (Sample.ext mail);
       query_run := query_run (Sample.ext mail);
       loads := fun _ => {| frame_columns := ["symbol"; "fc"];
                            frame_rows := frame_rows Sample.expression |};
       calculate_scores := calculate_scores (Sample.ext mail);
       dumps := dumps (Sample.ext mail);
       path_join := path_join (Sample.ext mail) |}.

Definition pybel : Pybel :=
  {| from_url := fun url =>
       if String.eqb url "http://example.org/orphan.bel" then Return orphan_graph
       else if String.eqb url "http://example.org/egf.bel" then Return egf_graph
       else Raise ConnectionError;
     insert_graph_default := fun g db =>
       if existsb (fun n => String.eqb (network_name n) (str_opt (name g)))
                  (networks db)
       then Raise IntegrityError
       else Return {| network_id := 1 + foldr Z.max 0 (map network_id (networks db));
                      network_name := str_opt (name g);
                      network_version := str_opt (version g);
                      blob := content g; network_users := [] |} |}.

End Cases.





(** The store [db'] holds, under every key but [i], the report that [db]
    holds. *)
Definition other_reports_kept (i : Z) (db db' : DB) : Prop :=
  forall j, j <> i -> get_report j db' = get_report j db.

(** What the world [w'] keeps of the world [w] when only report [i] was
    written: the other reports, with nothing left uncommitted. *)
Definition report_frame (i : Z) (w w' : World) : Prop :=
  other_reports_kept i (pending (session w)) (pending (session w'))
  /\ persisted (session w') = pending (session w').

(** ** Rows and keys *)

Lemma find_report_id i rs r :
  find (fun r => report_id r =? i) rs = Some r -> report_id r = i.
Proof.
  induction rs as [|x rs IH]; simpl; [discriminate|].
  destruct (report_id x =? i) eqn:E; [|exact IH].
  intros [= <-]. lia.
Qed.

Lemma get_report_id i db r : get_report i db = Some r -> report_id r = i.
Proof. apply find_report_id. Qed.

Lemma get_report_update i f db :
  (forall r, report_id (f r) = report_id r) ->
  get_report i (update_report i f db) = f <$> get_report i db.
Proof.
  intros Hf. unfold get_report, update_report, with_reports. simpl.
  induction (reports db) as [|x rs IH]; simpl; [reflexivity|].
  destruct (report_id x =? i) eqn:E.
  - rewrite Hf, E. reflexivity.
  - rewrite E. exact IH.
Qed.

Lemma get_report_set_message i b db r :
  get_report i db = Some r ->
  get_report i (update_report i (set_message b) db) = Some (set_message b r).
Proof.
  intros H. rewrite get_report_update by reflexivity. rewrite H. reflexivity.
Qed.

(** ** finish_parsing *)

Lemma finish_parsing_run ext report subject body flag w :
  finish_parsing ext report subject body flag w =
  (Return (PyStr body),
   {| session :=
        {| pending := update_report (report_id report) (set_message body)
                        (pending (session w));
           persisted := update_report (report_id report) (set_message body)
                          (pending (session w));
           closed := closed (session w) |};
      outbox := (outbox w ++ if app_mail ext
                             then [notification report subject body] else [])%list;
      files := files w; flashes := flashes w; clock_reads := clock_reads w |}).
Proof.
  unfold finish_parsing, make_mail, bind, commit, modify, send, ret,
    map_pending, set_session, notification.
  destruct (app_mail ext); simpl; [reflexivity|].
  rewrite app_nil_r. reflexivity.
Qed.

(** ** The header check *)

Lemma dumb_belief_lookup (k : string) :
  dumb_belief_stuff !! k =
  if decide (METADATA_DESCRIPTION = k) then Some {["Document description"]}
  else if decide (METADATA_CONTACT = k) then Some {["your@email.com"]}
  else if decide (METADATA_LICENSES = k) then Some {["Document license"]}
  else None.
Proof.
  unfold dumb_belief_stuff.
  rewrite !lookup_insert, lookup_empty.
  reflexivity.
Qed.

Lemma problem_In graph k v :
  In (k, v) (problem graph) <-> In (k, v) (document graph) /\ default_metadata k v.
Proof.
  unfold problem, default_metadata. rewrite filter_In. simpl.
  rewrite dumb_belief_lookup.
  split.
  - intros [Hin H]. split; [exact Hin|].
    repeat case_decide; try discriminate;
      apply bool_decide_eq_true_1, elem_of_singleton in H; subst; auto.
  - intros [Hin H]. split; [exact Hin|].
    destruct H as [[-> ->]|[[-> ->]|[-> ->]]];
      repeat (case_decide; try discriminate; try congruence);
      apply bool_decide_eq_true_2, elem_of_singleton; reflexivity.
Qed.

Lemma problem_nonempty graph :
  (exists k v, In (k, v) (document graph) /\ default_metadata k v) ->
  problem graph <> [].
Proof.
  intros (k & v & H) E. apply problem_In in H. rewrite E in H. exact H.
Qed.

(** ** async_parser *)

Lemma async_parser_missing ext i w :
  get_report i (pending (session w)) = None ->
  async_parser ext i w =
  (Raise (ValueError ("Report " +:+ str_Z i +:+ " not found")), tick w).
Proof.
  intros H. unfold async_parser, bind, time_now, current_db. simpl.
  rewrite H. reflexivity.
Qed.

Lemma async_parser_parse_raises ext i w report e :
  get_report i (pending (session w)) = Some report ->
  parse_graph ext report = Raise e ->
  async_parser ext i w =
  finish_parsing ext report ("Parsing Failed for " +:+ source_name report)
    (parse_failure_message (source_name report) e) true (tick w).
Proof.
  intros H He. unfold async_parser, bind, time_now, current_db. simpl.
  rewrite H, He. reflexivity.
Qed.

(** C2 (as amended): an exception raised while the document of a report is
    parsed does not leave the task.  Its message is stored in the report's
    [message] field, committed and returned; the notification with that
    message goes to the report's user when the application has a mail
    extension, and no mail is sent otherwise. *)
Theorem async_parser_parse_exception ext i w report e :
  get_report i (pending (session w)) = Some report ->
  parse_graph ext report = Raise e ->
  let body := parse_failure_message (source_name report) e in
  let out := async_parser ext i w in
  out.1 = Return (PyStr body)
  /\ get_report i (persisted (session out.2)) = Some (set_message body report)
  /\ pending (session out.2) = persisted (session out.2)
  /\ outbox out.2 =
     (outbox w ++ if app_mail ext
                  then [notification report
                          ("Parsing Failed for " +:+ source_name report) body]
                  else [])%list.
Proof.
  intros H He body out. subst out.
  rewrite (async_parser_parse_raises _ _ _ _ _ H He), finish_parsing_run.
  simpl. rewrite (get_report_id _ _ _ H).
  repeat split. apply get_report_set_message. exact H.
Qed.

Lemma async_parser_parse_exception_witness :
  let out := async_parser (Sample.ext true) 4 Sample.world in
  out.1 = Return (PyStr "Connection to resource could not be established.")
  /\ message <$> get_report 4 (persisted (session out.2))
     = Some (Some "Connection to resource could not be established.")
  /\ map recipients (outbox out.2) = [["bob@example.org"]].
Proof.
  destruct (async_parser_parse_exception (Sample.ext true) 4 Sample.world
              (Sample.new_report 4 Sample.bob "bad.bel") ConnectionError
              eq_refl eq_refl) as (H1 & H2 & _ & H4).
  split; [exact H1|]. split.
  - rewrite H2. reflexivity.
  - rewrite H4. reflexivity.
Defined.

(** C2 as the claim has it fails where no mail extension is installed: the
    connection error of report 4 is stored and returned, and nobody is
    notified. *)
Lemma async_parser_parse_exception_unnotified :
  let out := async_parser (Sample.ext false) 4 Sample.world in
  parse_graph (Sample.ext false) (Sample.new_report 4 Sample.bob "bad.bel")
    = Raise ConnectionError
  /\ get_report 4 (pending (session Sample.world))
     = Some (Sample.new_report 4 Sample.bob "bad.bel")
  /\ out.1 = Return (PyStr "Connection to resource could not be established.")
  /\ outbox out.2 = [].
Proof. vm_compute. repeat split. Qed.

Lemma async_parser_parsed ext i w report graph :
  get_report i (pending (session w)) = Some report ->
  parse_graph ext report = Return graph ->
  (truthy (name graph) = false \/ truthy (version graph) = false
   \/ problem graph <> []) ->
  exists body,
    async_parser ext i w =
      finish_parsing ext report
        (if truthy (name graph) && truthy (version graph)
         then "Rejected " +:+ source_name report
         else "Parsing Failed for " +:+ source_name report)
        body true (tick w)
    /\ (truthy (name graph) = false ->
        body = "Parsing failed for " +:+ source_name report
               +:+ " because SET DOCUMENT Name was missing.")
    /\ (truthy (name graph) = true -> truthy (version graph) = false ->
        body = "Parsing failed for " +:+ source_name report
               +:+ " because SET DOCUMENT Version was missing.")
    /\ (truthy (name graph) = true -> truthy (version graph) = true ->
        body = source_name report +:+ " was rejected because it has "
               +:+ dquote +:+ "default" +:+ dquote +:+ " metadata: "
               +:+ repr_dict ext (problem graph)).
Proof.
  intros H Hg Hbad.
  unfold async_parser, bind, time_now, current_db. simpl.
  rewrite H, Hg.
  destruct (truthy (name graph)) eqn:En; simpl.
  - destruct (truthy (version graph)) eqn:Ev; simpl.
    + destruct (problem graph) as [|kv rest] eqn:Ep.
      * destruct Hbad as [?|[?|?]]; congruence.
      * eexists. split; [reflexivity|]. repeat split; congruence.
    + eexists. split; [reflexivity|]. repeat split; congruence.
  - eexists. split; [reflexivity|]. repeat split; congruence.
Qed.

(** C9: a parsed graph without a name, without a version, or whose document
    still holds one of the three template values is turned away before
    [manager.insert_graph] is reached: the reason is returned and stored in
    the report, the stored networks are those from before, and the outcome
    is the same whatever [manager.insert_graph] would have done. *)
Theorem async_parser_rejects_unfit_graph ext i w report graph :
  get_report i (pending (session w)) = Some report ->
  parse_graph ext report = Return graph ->
  (truthy (name graph) = false \/ truthy (version graph) = false
   \/ exists k v, In (k, v) (document graph) /\ default_metadata k v) ->
  let out := async_parser ext i w in
  exists body,
    out.1 = Return (PyStr body)
    /\ (truthy (name graph) = false ->
        body = "Parsing failed for " +:+ source_name report
               +:+ " because SET DOCUMENT Name was missing.")
    /\ (truthy (name graph) = true -> truthy (version graph) = false ->
        body = "Parsing failed for " +:+ source_name report
               +:+ " because SET DOCUMENT Version was missing.")
    /\ (truthy (name graph) = true -> truthy (version graph) = true ->
        body = source_name report +:+ " was rejected because it has "
               +:+ dquote +:+ "default" +:+ dquote +:+ " metadata: "
               +:+ repr_dict ext (problem graph))
    /\ get_report i (persisted (session out.2)) = Some (set_message body report)
    /\ networks (pending (session out.2)) = networks (pending (session w))
    /\ networks (persisted (session out.2)) = networks (pending (session w))
    /\ forall ins, async_parser (set_insert_graph ins ext) i w = out.
Proof.
  intros H Hg Hbad out. subst out.
  assert (Hbad' : truthy (name graph) = false \/ truthy (version graph) = false
                  \/ problem graph <> []).
  { destruct Hbad as [?|[?|?]]; auto using problem_nonempty. }
  destruct (async_parser_parsed ext i w report graph H Hg Hbad')
    as (body & Hrun & Hn & Hv & Hp).
  exists body. rewrite Hrun, finish_parsing_run. simpl.
  rewrite (get_report_id _ _ _ H).
  repeat split; auto using get_report_set_message.
  intros ins.
  destruct (async_parser_parsed (set_insert_graph ins ext) i w report graph
              H Hg Hbad') as (body' & Hrun' & Hn' & Hv' & Hp').
  rewrite Hrun', !finish_parsing_run. simpl.
  assert (body' = body) as ->.
  { destruct (truthy (name graph)) eqn:En.
    - destruct (truthy (version graph)) eqn:Ev.
      + rewrite Hp, Hp' by reflexivity. reflexivity.
      + rewrite Hv, Hv' by reflexivity. reflexivity.
    - rewrite Hn, Hn' by reflexivity. reflexivity. }
  rewrite (get_report_id _ _ _ H). reflexivity.
Qed.

Lemma async_parser_rejects_unfit_graph_witness :
  exists body,
    (async_parser (Sample.ext true) 5 Sample.world).1 = Return (PyStr body)
    /\ message <$> get_report 5
         (persisted (session (async_parser (Sample.ext true) 5 Sample.world).2))
       = Some (Some body)
    /\ map network_id
         (networks (persisted (session (async_parser (Sample.ext true) 5 Sample.world).2)))
       = [1].
Proof.
  destruct (async_parser_rejects_unfit_graph (Sample.ext true) 5 Sample.world
              (Sample.new_report 5 Sample.bob "draft.bel")
              {| name := Some "Draft"; version := Some "0.0.1";
                 document := [("name", "Draft"); ("contact", "your@email.com")];
                 content := [5] |}
              eq_refl eq_refl)
    as (body & H1 & _ & _ & _ & H5 & _ & H7 & _).
  - right. right. exists "contact", "your@email.com". split.
    + right. left. reflexivity.
    + right. left. split; reflexivity.
  - exists body. split; [exact H1|]. split.
    + rewrite H5. reflexivity.
    + rewrite H7. reflexivity.
Defined.

(** ** The stages of async_parser after the header check *)

Lemma get_report_update_network i j f db :
  get_report i (update_network j f db) = get_report i db.
Proof. reflexivity. Qed.

Lemma rollback_clean w : clean w -> rollback w = (Return tt, w).
Proof.
  destruct w as [[p q c] o f fl k]. unfold clean. simpl. intros ->.
  reflexivity.
Qed.



Lemma make_report_cases ext t report graph network w r w' :
  make_report ext t report graph network w = (r, w') ->
  (exists filled,
     fill_out_report ext network report (make_graph_summary ext graph)
       = Return filled
     /\ r = Return (PyInt (network_id network))
     /\ pending (session w') =
        update_report (report_id report)
          (fun _ => set_time (time_time ext (clock_reads w) - t) filled)
          (pending (session w))
     /\ persisted (session w') = pending (session w')
     /\ closed (session w') = true)
  \/ (r = Return (PyInt (-1))
      /\ pending (session w') = persisted (session w)
      /\ persisted (session w') = persisted (session w)
      /\ closed (session w') = true).
Proof.
  unfold make_report, guarded_commit, make_mail. run_task.
  destruct (fill_out_report ext network report _) as [filled|e]; simpl.
  - destruct (commit_outcome ext _) as [e|]; simpl.
    + destruct (app_mail ext); simpl; intros [= <- <-]; right; auto.
    + destruct (app_mail ext); simpl; intros [= <- <-]; left;
        exists filled; auto.
  - destruct (app_mail ext); simpl; intros [= <- <-]; right; auto.
Qed.

(** *** The stages on a session that may hold uncommitted changes *)


Lemma async_parser_duplicate ext i w report graph network :
  accepted ext i w report graph ->
  same_name_version graph (pending (session w)) = [network] ->
  async_parser ext i w = existing_network ext report graph network (tick w).
Proof.
  intros (H & Hg & Hn & Hv & Hp) Hd.
  unfold async_parser, bind, time_now, current_db, lift. simpl.
  unfold same_name_version in Hd.
  rewrite H, Hg, Hn, Hv, Hp. simpl. rewrite Hd. reflexivity.
Qed.














(** *** The stored duplicate *)

(** On every branch of lines 214-240 the task ends without reaching
    [manager.insert_graph]: the networks of the store keep their keys,
    names, versions and blobs. *)
Lemma existing_network_keeps_networks ext report graph network w r w' :
  existing_network ext report graph network w = (r, w') ->
  map network_id (networks (pending (session w')))
  = map network_id (networks (pending (session w)))
  /\ map blob (networks (pending (session w')))
     = map blob (networks (pending (session w))).
Proof.
  unfold existing_network, send_message_unguarded, finish_parsing, make_mail.
  run_task.
  destruct (network_report network _); [|intros [= <- <-]; auto].
  assert (Hmap : forall (f : Network -> Network) ns,
            (forall n, network_id (f n) = network_id n) ->
            (forall n, blob (f n) = blob n) ->
            map network_id (map (fun n => if network_id n =? network_id network
                                          then f n else n) ns)
            = map network_id ns
            /\ map blob (map (fun n => if network_id n =? network_id network
                                       then f n else n) ns)
               = map blob ns).
  { intros f ns Hi Hb. rewrite !map_map. split; apply map_ext; intros n;
      destruct (network_id n =? network_id network); auto. }
  destruct (_ =? _); [destruct (app_mail ext); intros [= <- <-]; auto|].
  destruct (negb _).
  - destruct (app_mail ext); intros [= <- <-]; auto.
  - destruct (app_mail ext); intros [= <- <-]; simpl; apply Hmap; auto.
Qed.

(** The content of the uploaded graph is never read on lines 214-240: the
    hash of line 220 is taken of [to_bytes(network)]. *)
Lemma existing_network_ignores_content ext report graph network c :
  existing_network ext report
    {| name := name graph; version := version graph;
       document := document graph; content := c |} network
  = existing_network ext report graph network.
Proof. reflexivity. Qed.

(** C1, the defect: on lines 214-240 the hash of the stored blob is compared
    with the hash of [to_bytes(network)], the stored network again, where
    the uploaded graph was meant; the bytes of the upload are never read.
    So for an upload by another user under the name and version of a stored
    network, whatever the installation and whatever was uploaded: when
    [to_bytes] of the stored row does not reproduce its blob, the upload is
    refused as espionage, also when its bytes are exactly those stored; and
    when it does, the uploader is granted rights, also when the bytes
    differ. *)
Theorem async_parser_duplicate_compares_network_with_itself
    ext i w report graph network owner :
  accepted ext i w report graph ->
  same_name_version graph (pending (session w)) = [network] ->
  network_report network (pending (session w)) = Some owner ->
  user_id (report_user owner) <> user_id (report_user report) ->
  let out := async_parser ext i w in
  let refusal := integrity_message (str_opt (name graph)) (str_opt (version graph)) in
  (sha1_hexdigest ext (blob network)
   <> sha1_hexdigest ext (to_bytes ext (ObjNetwork network)) ->
   app_mail ext = true ->
   out.1 = Return (PyStr refusal)
   /\ networks (persisted (session out.2)) = networks (pending (session w))
   /\ get_report i (persisted (session out.2)) = Some (set_message refusal report)
   /\ map subject (outbox out.2)
      = (map subject (outbox w)
         ++ ["Possible attempted Espionage";
             "Upload Failed for " +:+ source_name report])%list)
  /\ (sha1_hexdigest ext (blob network)
      = sha1_hexdigest ext (to_bytes ext (ObjNetwork network)) ->
      out.1 = Return (PyStr ("Granted rights for " +:+ str_network ext network
                             +:+ " to " +:+ str_user ext (report_user report)
                             +:+ " after parsing " +:+ source_name report))
      /\ networks (persisted (session out.2))
         = map (fun n =>
                  if network_id n =? network_id network
                  then {| network_id := network_id n;
                          network_name := network_name n;
                          network_version := network_version n;
                          blob := blob n;
                          network_users := network_users n ++ [report_user report] |}
                  else n)
               (networks (pending (session w)))).
Proof.
  intros Ha Hd Ho Hu out refusal. subst out refusal.
  rewrite (async_parser_duplicate _ _ _ _ _ _ Ha Hd).
  destruct Ha as (H & _). pose proof (get_report_id _ _ _ H) as Hid.
  apply Z.eqb_neq in Hu.
  split.
  - intros Hh Hm. apply String.eqb_neq in Hh.
    assert (Hrun : existing_network ext report graph network (tick w)
                   = (let* _ := send_message_unguarded ext
                        {| subject := "Possible attempted Espionage";
                           recipients := [CHARLIE_EMAIL; DANIEL_EMAIL];
                           body := "The following user ("
                                   +:+ str_Z (user_id (report_user report))
                                   +:+ " " +:+ email (report_user report)
                                   +:+ ") may have attempted espionage of network: "
                                   +:+ str_network ext network;
                           sender := pbw_sender;
                           attachments := [] |} in
                      finish_parsing ext report
                        ("Upload Failed for " +:+ source_name report)
                        (integrity_message (str_opt (name graph))
                           (str_opt (version graph))) true) (tick w)).
    { unfold existing_network. unfold bind at 1, current_db at 1. simpl.
      rewrite Ho, Hu, Hh. reflexivity. }
    rewrite Hrun. unfold send_message_unguarded. rewrite Hm.
    unfold bind, send, modify. rewrite finish_parsing_run, Hm. simpl.
    rewrite Hid, get_report_update, H by reflexivity.
    rewrite !map_app, <- app_assoc. repeat split.
  - intros Hh. apply String.eqb_eq in Hh.
    assert (Hrun : existing_network ext report graph network (tick w)
                   = (modify (map_pending (update_network (network_id network)
                        (fun n => {| network_id := network_id n;
                                     network_name := network_name n;
                                     network_version := network_version n;
                                     blob := blob n;
                                     network_users :=
                                       network_users n ++ [report_user report] |}))) ;;;
                      commit ;;;
                      finish_parsing ext report
                        ("Granted Rights from " +:+ source_name report)
                        ("Granted rights for " +:+ str_network ext network
                         +:+ " to " +:+ str_user ext (report_user report)
                         +:+ " after parsing " +:+ source_name report) false)
                       (tick w)).
    { unfold existing_network. unfold bind at 1, current_db at 1. simpl.
      rewrite Ho, Hu, Hh. reflexivity. }
    rewrite Hrun. unfold bind, commit, modify. rewrite finish_parsing_run.
    simpl. split; reflexivity.
Qed.

Lemma async_parser_duplicate_compares_network_with_itself_witness :
  let e := Cases.ext true true None in
  let out := async_parser e 9 Cases.world in
  sha1_hexdigest e (to_bytes e (ObjGraph Cases.egf_graph))
  = sha1_hexdigest e (blob Sample.egf)
  /\ out.1 = Return (PyStr (integrity_message "EGF" "1.0.0"))
  /\ map subject (outbox out.2)
     = ["Possible attempted Espionage"; "Upload Failed for egf.bel"]
  /\ map network_users (networks (persisted (session out.2))) = [[]; []].
Proof.
  intros e out.
  destruct (async_parser_duplicate_compares_network_with_itself e 9 Cases.world
              (Sample.new_report 9 Sample.bob "egf.bel") Cases.egf_graph
              Sample.egf Sample.first_report) as [Hrefused _].
  - repeat split.
  - reflexivity.
  - reflexivity.
  - discriminate.
  - destruct Hrefused as (H1 & H2 & _ & H4); [discriminate|reflexivity|].
    fold out in H1, H2, H4.
    split; [reflexivity|]. split; [exact H1|]. split; [exact H4|].
    rewrite H2. reflexivity.
Defined.

(** ** merge_project *)

(** [project.networks]: each stored network whose key the project lists,
    in the order of the keys. *)
Lemma networks_of_In project db n :
  In n (networks_of project db)
  <-> exists k, In k (project_networks project)
                /\ get_network_by_id k db = Some n.
Proof.
  unfold networks_of. rewrite <- list_elem_of_In, list_elem_of_omap.
  setoid_rewrite list_elem_of_In. reflexivity.
Qed.

(** C6: for a stored project the task is one pass.  What goes to [union]
    are the graphs of the project's networks, one for each key of the
    project, in the order of the keys; the result gets the UUID as its name
    and 1.0.0 as its version, and then exactly one thing happens.  Without a
    mail extension the lines of that document are written to the [.bel]
    file named by the UUID, nothing is sent and [None] is returned; with
    one, a single message carrying the lines as the attachment [merged.bel]
    goes to the requesting user, nothing is written and 1 is returned.  The
    session is left as it was. *)
Theorem merge_project_effect ext user_id project_id w project :
  get_project project_id (pending (session w)) = Some project ->
  let db := pending (session w) in
  let merged :=
    union ext (map (as_bel ext)
                 (omap (fun k => get_network_by_id k db)
                       (project_networks project))) in
  let graph := {| name := Some (uuid4 ext); version := Some "1.0.0";
                  document := document merged; content := content merged |} in
  let out := merge_project ext user_id project_id w in
  (forall n, In n (omap (fun k => get_network_by_id k db)
                        (project_networks project))
             <-> exists k, In k (project_networks project)
                           /\ get_network_by_id k db = Some n)
  /\ (app_mail ext = false ->
      out.1 = Return PyNone
      /\ files out.2 =
         (files w ++ [(path_join ext (PYBEL_DATA_DIR ext) (uuid4 ext +:+ ".bel"),
                       to_bel_lines ext graph)])%list
      /\ outbox out.2 = outbox w
      /\ session out.2 = session w)
  /\ (app_mail ext = true ->
      forall user, get_user user_id (pending (session w)) = Some user ->
      out.1 = Return (PyInt 1)
      /\ outbox out.2 =
         (outbox w ++
          [{| subject := "Merged " +:+ project_name project +:+ " BEL";
              recipients := [email user];
              body := "The BEL documents from " +:+ project_name project
                      +:+ " were merged. The resulting BEL script is attached";
              sender := pbw_sender;
              attachments :=
                [("merged.bel", "text/plain",
                  String.concat newline (to_bel_lines ext graph))] |}])%list
      /\ files out.2 = files w
      /\ session out.2 = session w).
Proof.
  intros H db merged graph out. subst out merged graph db.
  split; [intros n; apply (networks_of_In project)|].
  unfold merge_project. run_task. rewrite H.
  split.
  - intros ->. simpl. auto.
  - intros -> user ->. simpl. auto.
Qed.

Lemma merge_project_effect_witness :
  (merge_project (Sample.ext true) 1 1 Sample.world).1 = Return (PyInt 1)
  /\ map attachments (outbox (merge_project (Sample.ext true) 1 1 Sample.world).2)
     = [[("merged.bel", "text/plain", String.concat newline ["1"; "2"; "3"])]]
  /\ (merge_project (Sample.ext false) 1 1 Sample.world).1 = Return PyNone
  /\ files (merge_project (Sample.ext false) 1 1 Sample.world).2
     = [("/data/0f8fad5b-d9cb-469f-a165-70867728950e.bel", ["1"; "2"; "3"])].
Proof.
  destruct (merge_project_effect (Sample.ext true) 1 1 Sample.world
              (mkProject 1 "Growth" [1] [1]) eq_refl) as (_ & _ & Hmail).
  destruct (merge_project_effect (Sample.ext false) 1 1 Sample.world
              (mkProject 1 "Growth" [1] [1]) eq_refl) as (_ & Hfile & _).
  destruct (Hmail eq_refl Sample.alice eq_refl) as (H1 & H1' & _).
  destruct (Hfile eq_refl) as (H2 & H3 & _).
  split; [exact H1|]. split; [rewrite H1'; reflexivity|].
  split; [exact H2|]. rewrite H3. reflexivity.
Defined.

(** ** run_cmpa *)

Lemma get_experiment_update i f db :
  (forall x, experiment_id (f x) = experiment_id x) ->
  get_experiment i (update_experiment i f db) = f <$> get_experiment i db.
Proof.
  intros Hf. unfold get_experiment, update_experiment, with_experiments. simpl.
  induction (experiments db) as [|x xs IH]; simpl; [reflexivity|].
  destruct (experiment_id x =? i) eqn:E.
  - rewrite Hf, E. reflexivity.
  - rewrite E. exact IH.
Qed.

(** C7: the scores come from [calculate_scores], run on the graph of the
    experiment's query, the gene data of the frame and the experiment's
    number of permutations.  Pickled, they are put in the experiment's
    [result] field with [completed] set, the other fields staying as they
    are, and only then is the commit tried.  When the commit raises, the
    session is rolled back and closed, no mail is sent and -1 is returned.
    Otherwise the completed experiment is committed, the session closed,
    the experiment's user is notified when the application has a mail
    extension, and the experiment's key is returned. *)
Theorem run_cmpa_effect ext i w experiment query pairs :
  get_experiment i (pending (session w)) = Some experiment ->
  get_query (query_id experiment) (pending (session w)) = Some query ->
  gene_data (gene_column experiment) (data_column experiment)
    (loads ext (source experiment)) = Return pairs ->
  let scores := calculate_scores ext (query_run ext query (pending (session w)))
                  (dict_of pairs) (permutations experiment) in
  let done :=
    {| experiment_id := experiment_id experiment;
       experiment_user := experiment_user experiment;
       query_id := query_id experiment;
       source := source experiment;
       experiment_source_name := experiment_source_name experiment;
       gene_column := gene_column experiment;
       data_column := data_column experiment;
       permutations := permutations experiment;
       experiment_result := Some (dumps ext scores);
       completed := true |} in
  let staged := update_experiment i (set_result (dumps ext scores))
                  (pending (session w)) in
  let out := run_cmpa ext i w in
  get_experiment i staged = Some done
  /\ (forall e, commit_outcome ext staged = Some e ->
      out.1 = Return (PyInt (-1))
      /\ pending (session out.2) = persisted (session w)
      /\ persisted (session out.2) = persisted (session w)
      /\ closed (session out.2) = true
      /\ outbox out.2 = outbox w)
  /\ (commit_outcome ext staged = None ->
      out.1 = Return (PyInt i)
      /\ persisted (session out.2) = staged
      /\ pending (session out.2) = staged
      /\ get_experiment i (persisted (session out.2)) = Some done
      /\ closed (session out.2) = true
      /\ outbox out.2 =
         (outbox w ++
          if app_mail ext
          then [{| subject := "CMPA Analysis complete";
                   recipients := [email (experiment_user experiment)];
                   body := "Experiment " +:+ str_Z i +:+ " on query "
                           +:+ str_Z (query_id experiment) +:+ " with "
                           +:+ experiment_source_name experiment
                           +:+ " has completed";
                   sender := pbw_sender;
                   attachments := [] |}]
          else [])%list).
Proof.
  intros H Hq Hd scores done staged out. subst out staged.
  assert (Hdone : get_experiment i
                    (update_experiment i (set_result (dumps ext scores))
                       (pending (session w))) = Some done).
  { rewrite get_experiment_update by reflexivity. rewrite H. reflexivity. }
  split; [exact Hdone|]. subst scores done.
  unfold run_cmpa, guarded_commit. run_task. rewrite H, Hq, Hd. simpl.
  split.
  - intros e ->. simpl. auto.
  - intros ->. simpl.
    destruct (app_mail ext); simpl; rewrite ?app_nil_r; repeat split;
      exact Hdone.
Qed.

Lemma run_cmpa_effect_witness :
  let out := run_cmpa (Sample.ext true) 1 Sample.world in
  let failed := run_cmpa (Sample.locked (Sample.ext true)) 1 Sample.world in
  out.1 = Return (PyInt 1)
  /\ experiment_result <$> get_experiment 1 (persisted (session out.2))
     = Some (Some [4; 4])
  /\ completed <$> get_experiment 1 (persisted (session out.2)) = Some true
  /\ failed.1 = Return (PyInt (-1))
  /\ completed <$> get_experiment 1 (persisted (session failed.2)) = Some false
  /\ outbox failed.2 = [].
Proof.
  intros out failed.
  destruct (run_cmpa_effect (Sample.ext true) 1 Sample.world Sample.trial
              Sample.stored_query
              [("EGFR", Some "2.5"); ("TP53", None); ("EGFR", Some "3.5")]
              eq_refl eq_refl eq_refl) as (_ & _ & Hok).
  destruct (run_cmpa_effect (Sample.locked (Sample.ext true)) 1 Sample.world
              Sample.trial Sample.stored_query
              [("EGFR", Some "2.5"); ("TP53", None); ("EGFR", Some "3.5")]
              eq_refl eq_refl eq_refl) as (_ & Hko & _).
  destruct (Hok eq_refl) as (H1 & _ & _ & Hrow & _).
  destruct (Hko OperationalError eq_refl) as (H2 & _ & Hp & _ & H3).
  fold out in H1, Hrow. fold failed in H2, Hp, H3.
  split; [exact H1|]. split; [rewrite Hrow; vm_compute; reflexivity|].
  split; [rewrite Hrow; reflexivity|]. split; [exact H2|].
  split; [rewrite Hp; reflexivity|exact H3].
Defined.

(** ** The routes on networks and queries *)

(** C10: for a network key that is not among those the current user has
    rights on, both routes abort with 403 and leave the world as it was: no
    network is read, nothing is flashed, and [view_explore_network] adds no
    query. *)
Theorem network_routes_forbidden web cu network_id w :
  network_id ∉ get_network_ids_with_permission_helper web cu (pending (session w)) ->
  view_explore_network web cu network_id w =
    (Raise (HTTPException 403
              ("Insufficient rights for network " +:+ str_Z network_id)), w)
  /\ view_summary web cu network_id w =
       (Raise (HTTPException 403
                 ("Insufficient rights for network " +:+ str_Z network_id)), w).
Proof.
  intros H. unfold view_explore_network, view_summary, abort. run_task.
  rewrite bool_decide_eq_false_2 by exact H. simpl. split; reflexivity.
Qed.

Lemma network_routes_forbidden_witness :
  (view_explore_network Sample.web (LoggedIn Sample.alice) 1 Sample.world).1
    = Raise (HTTPException 403 "Insufficient rights for network 1")
  /\ queries (pending (session
       (view_explore_network Sample.web (LoggedIn Sample.alice) 1 Sample.world).2))
     = [Sample.stored_query].
Proof.
  destruct (network_routes_forbidden Sample.web (LoggedIn Sample.alice) 1
              Sample.world) as [H _].
  - vm_compute. intros H. apply (proj1 (elem_of_empty (C:=gset Z) 1) H).
  - rewrite H. split; reflexivity.
Defined.

Lemma next_query_id_above db q :
  In q (queries db) -> stored_query_id q < next_query_id db.
Proof.
  unfold next_query_id. induction (queries db) as [|x qs IH]; simpl; [tauto|].
  intros [->|H]; [lia|]. specialize (IH H). lia.
Qed.

Lemma get_query_fresh db : get_query (next_query_id db) db = None.
Proof.
  unfold get_query. destruct (find _ _) as [q|] eqn:H; [|reflexivity].
  apply find_some in H. destruct H as [Hin E].
  apply next_query_id_above in Hin. lia.
Qed.

Lemma find_app_l {A} (p : A -> bool) l1 l2 x :
  find p l1 = Some x -> find p (l1 ++ l2) = Some x.
Proof.
  induction l1 as [|y l1 IH]; simpl; [discriminate|].
  destruct (p y); auto.
Qed.

Lemma find_app_r {A} (p : A -> bool) l1 l2 :
  find p l1 = None -> find p (l1 ++ l2) = find p l2.
Proof.
  induction l1 as [|y l1 IH]; simpl; [reflexivity|].
  destruct (p y); [discriminate|auto].
Qed.

(** C5: the compile route stores one new query, built from the submitted
    form, under a fresh key, commits it and redirects to the explorer of
    that key, whatever the store held before; looked up under that key
    afterwards, the stored query is the one built from the form.  The
    comparison route fetches the two queries and runs each of them on the
    store at the time of the request, the page showing the overlap of the
    two results, and leaves the store untouched. *)
Theorem stored_queries_are_rerun web cu form query_1_id query_2_id w :
  let db := pending (session w) in
  let compiled := get_pipeline web cu form w in
  let stored := set_query_id (next_query_id db)
                  (from_query web db (from_json web (query_form_to_dict web form)) cu) in
  compiled.1 = Return (Redirect (url_for "view_explorer_query"
                                   [("query_id", str_Z (next_query_id db))]))
  /\ get_query (next_query_id db) db = None
  /\ queries (persisted (session compiled.2)) = (queries db ++ [stored])%list
  /\ get_query (next_query_id db) (persisted (session compiled.2)) = Some stored
  /\ pending (session compiled.2) = persisted (session compiled.2)
  /\ (forall q1 q2,
        safe_get_query web cu query_1_id db = Return q1 ->
        safe_get_query web cu query_2_id db = Return q2 ->
        view_query_comparison web cu query_1_id query_2_id w =
          (Return (QueryComparison query_1_id query_2_id
                     (calculate_overlap_dict web
                        (run web q1 db) ("Query " +:+ str_Z query_1_id)
                        (run web q2 db) ("Query " +:+ str_Z query_2_id))), w)).
Proof.
  intros db compiled stored. subst compiled stored db.
  split; [reflexivity|]. split; [apply get_query_fresh|].
  split; [reflexivity|]. split.
  - pose proof (get_query_fresh (pending (session w))) as Hf.
    unfold get_pipeline, add_query. run_task.
    unfold get_query in *. simpl. rewrite find_app_r by exact Hf.
    simpl. rewrite Z.eqb_refl. reflexivity.
  - split; [reflexivity|]. intros q1 q2 H1 H2.
    unfold view_query_comparison. run_task. rewrite H1, H2. reflexivity.
Qed.

Lemma stored_queries_are_rerun_witness :
  (view_query_comparison Sample.web (LoggedIn Sample.root) 1 1 Sample.world).1
    = Return (QueryComparison 1 1 [("Query 1", 1); ("Query 1", 1)])
  /\ map stored_query_id
       (queries (persisted (session
          (get_pipeline Sample.web (LoggedIn Sample.root) [("seed", "EGFR")]
             Sample.world).2)))
     = [1; 2].
Proof.
  destruct (stored_queries_are_rerun Sample.web (LoggedIn Sample.root)
              [("seed", "EGFR")] 1 1 Sample.world)
    as (_ & _ & Hq & _ & _ & Hc).
  rewrite (Hc Sample.stored_query Sample.stored_query eq_refl eq_refl), Hq.
  split; reflexivity.
Defined.

(** ** The network loader *)

Lemma In_firstn {A} (x : A) n l : In x (firstn n l) -> In x l.
Proof.
  revert l. induction n as [|n IH]; intros [|y l]; simpl; try tauto.
  intros [->|H]; auto.
Qed.

Lemma In_skipn {A} (x : A) n l : In x (skipn n l) -> In x l.
Proof.
  revert l. induction n as [|n IH]; intros [|y l]; simpl; try tauto.
  intros H. right. auto.
Qed.

Lemma all_In q db n :
  In n (all q db) ->
  In n (networks db) /\ forall c, In c (criteria q) -> c n = true.
Proof.
  unfold all. intros H.
  apply In_firstn, In_skipn, filter_In in H. destruct H as [H Hc].
  split; [exact H|]. rewrite forallb_forall in Hc. exact Hc.
Qed.

Lemma elem_of_add_ids (i : Z) (l : list Network) (acc : gset Z) :
  i ∈ foldl (fun acc' network => acc' ∪ {[network_id network]}) acc l
  <-> i ∈ acc \/ exists m, In m l /\ network_id m = i.
Proof.
  revert acc. induction l as [|n l IH]; intros acc; simpl.
  - split; [auto|]. intros [H|(m & [] & _)]. exact H.
  - rewrite IH, elem_of_union, elem_of_singleton. split.
    + intros [[H| ->]|(m & Hm & E)]; eauto 6.
    + intros [H|(m & [->|Hm] & E)]; eauto 6.
Qed.

Lemma elem_of_add_owned web db (i : Z) (us : list User) (acc : gset Z) :
  i ∈ foldl (fun acc u =>
               foldl (fun acc' network => acc' ∪ {[network_id network]})
                     acc (get_owned_networks web u db)) acc us
  <-> i ∈ acc
      \/ exists u m, In u us /\ In m (get_owned_networks web u db)
                     /\ network_id m = i.
Proof.
  revert acc. induction us as [|u us IH]; intros acc; simpl.
  - split; [auto|]. intros [H|(u & m & [] & _)]. exact H.
  - rewrite IH, elem_of_add_ids. split.
    + intros [[H|(m & Hm & E)]|(v & m & Hv & Hm & E)]; eauto 8.
    + intros [H|(v & m & [->|Hv] & Hm & E)]; eauto 8.
Qed.

Lemma iter_public_networks_In web db m :
  In m (iter_public_networks web db)
  <-> In m (list_recent_networks web db)
      /\ exists report, network_report m db = Some report /\ public report = true.
Proof.
  unfold iter_public_networks. rewrite filter_In. split.
  - intros [H Hp]. split; [exact H|].
    destruct (network_report m db) as [report|]; [eauto|discriminate].
  - intros [H (report & -> & Hp)]. auto.
Qed.

Lemma elem_of_allowed_network_ids web user db (i : Z) :
  i ∈ allowed_network_ids web user db
  <-> (exists m, network_id m = i
         /\ (In m (get_owned_networks web user db)
             \/ In m (get_shared_networks web user db)
             \/ In m (iter_public_networks web db)))
      \/ (is_scai user = true
          /\ exists u m, In u (scai_role_users web db)
                         /\ In m (get_owned_networks web u db)
                         /\ network_id m = i).
Proof.
  assert (Hchain : i ∈ (list_to_set (map network_id
                     (get_owned_networks web user db
                      ++ get_shared_networks web user db
                      ++ iter_public_networks web db)) : gset Z)
                   <-> exists m, network_id m = i
                         /\ (In m (get_owned_networks web user db)
                             \/ In m (get_shared_networks web user db)
                             \/ In m (iter_public_networks web db))).
  { rewrite elem_of_list_to_set, list_elem_of_In, in_map_iff.
    setoid_rewrite in_app_iff. setoid_rewrite in_app_iff. reflexivity. }
  unfold allowed_network_ids. destruct (is_scai user).
  - rewrite elem_of_add_owned, Hchain. intuition.
  - rewrite Hchain. intuition discriminate.
Qed.

(** C8: for a user who is not an admin, every network that [get_list]
    returns is a stored network whose key is the key of a network the user
    owns, of one shared with the user, of a public one, or, for a user with
    the SCAI role, of one owned by a user of that role; and when no key is
    allowed the loader returns the empty list without building or running
    its query. *)
Theorem get_list_within_allowed web user db term offset limit :
  is_admin user = false ->
  (forall network,
     In network (get_list web user db term offset limit) ->
     In network (networks db)
     /\ ((exists m, network_id m = network_id network
            /\ (In m (get_owned_networks web user db)
                \/ In m (get_shared_networks web user db)
                \/ (In m (list_recent_networks web db)
                    /\ exists report, network_report m db = Some report
                                      /\ public report = true)))
         \/ (is_scai user = true
             /\ exists u m, In u (scai_role_users web db)
                            /\ In m (get_owned_networks web u db)
                            /\ network_id m = network_id network)))
  /\ (allowed_network_ids web user db = ∅ ->
      get_list_query web user db term offset limit = None
      /\ get_list web user db term offset limit = []).
Proof.
  intros Hadmin. unfold get_list, get_list_query. rewrite Hadmin. simpl.
  split.
  - intros network. case_bool_decide as He; [intros []|].
    intros H. apply all_In in H. destruct H as [Hin Hc]. split; [exact Hin|].
    specialize (Hc (fun n => bool_decide (network_id n ∈ allowed_network_ids web user db))).
    simpl in Hc. specialize (Hc (or_intror (or_introl eq_refl))).
    apply bool_decide_eq_true_1, elem_of_allowed_network_ids in Hc.
    destruct Hc as [(m & E & Hm)|Hs]; [left|right; exact Hs].
    exists m. split; [exact E|]. rewrite iter_public_networks_In in Hm. exact Hm.
  - intros ->. rewrite bool_decide_eq_true_2 by reflexivity. auto.
Qed.

Lemma get_list_within_allowed_witness :
  In Sample.egf (get_list Sample.web Sample.bob Sample.store "EG" 0 10)
  /\ In Sample.egf (networks Sample.store).
Proof.
  destruct (get_list_within_allowed Sample.web Sample.bob Sample.store "EG"
              0%nat 10%nat eq_refl) as [H _].
  assert (Hin : In Sample.egf
                  (get_list Sample.web Sample.bob Sample.store "EG" 0 10)).
  { vm_compute. left. reflexivity. }
  split; [exact Hin|]. exact (proj1 (H Sample.egf Hin)).
Defined.

(** ** The admin views *)

(** C3 (as amended): every registered model view other than the project
    view is accessible exactly to an authenticated user who is an admin,
    shows its table to such a user and redirects every other requester to
    the login page.  The project view returned by [build_project_view] is
    accessible to every authenticated user, redirects an anonymous requester
    to the login page, and shows a user who is not an admin the projects
    that user belongs to. *)
Theorem model_views_admin_only v cu db name request_url :
  view_model v <> "Project" ->
  (In v application_utils._build_admin_service ->
   (is_accessible (view_class v) cu = true
    <-> is_authenticated cu = true /\ exists u, cu = LoggedIn u /\ is_admin u = true)
   /\ (is_accessible (view_class v) cu = true ->
       handle_view v cu db name request_url
       = ModelList (view_model v) (column_exclude_list (view_class v)))
   /\ (is_accessible (view_class v) cu = false ->
       handle_view v cu db name request_url
       = Redirect (url_for_security "login" [("next", request_url)])))
  /\ (In v admin_service.build_admin_service ->
      (is_accessible (view_class v) cu = true
       <-> is_authenticated cu = true /\ exists u, cu = LoggedIn u /\ admin u = true)
      /\ (is_accessible (view_class v) cu = true ->
          handle_view v cu db name request_url
          = ModelList (view_model v) (column_exclude_list (view_class v)))
      /\ (is_accessible (view_class v) cu = false ->
          handle_view v cu db name request_url
          = Redirect (url_for "login" [("next", request_url)])))
  /\ (let project_view := mkRegistered application_utils.ProjectView "Project" in
      In project_view application_utils._build_admin_service
      /\ is_accessible (view_class project_view) cu = is_authenticated cu
      /\ (cu = AnonymousUser ->
          handle_view project_view cu db name request_url
          = Redirect (url_for_security "login" [("next", request_url)]))
      /\ (forall u, cu = LoggedIn u -> is_admin u = false ->
          handle_view project_view cu db name request_url
          = ProjectList
              (List.filter (fun p => bool_decide (project_id p ∈ user_projects u))
                           (projects db)))).
Proof.
  intros Hmodel.
  assert (Hadmin : forall (flag : User -> bool),
            (match cu with AnonymousUser => false | LoggedIn u => flag u end = true
             <-> is_authenticated cu = true
                 /\ exists u, cu = LoggedIn u /\ flag u = true)).
  { intros flag. destruct cu as [|u]; simpl.
    - split; [discriminate|]. intros [H _]. discriminate.
    - split; [eauto|]. intros [_ (u' & [= <-] & H)]. exact H. }
  split; [|split].
  - intros H. simpl in H.
    repeat (destruct H as [<-|H]; [|]); try contradiction;
      try (exfalso; apply Hmodel; reflexivity);
      (split; [apply Hadmin|]);
      unfold handle_view; simpl; split; intros ->; reflexivity.
  - intros H. simpl in H.
    repeat (destruct H as [<-|H]; [|]); try contradiction;
      try (exfalso; apply Hmodel; reflexivity);
      (split; [apply Hadmin|]);
      unfold handle_view; simpl; split; intros ->; reflexivity.
  - simpl. split; [tauto|]. split; [reflexivity|]. split.
    + intros ->. reflexivity.
    + intros u -> Hu. unfold handle_view. simpl. rewrite Hu.
      f_equal. apply filter_ext. intros p.
      apply bool_decide_ext. rewrite elem_of_list_to_set. reflexivity.
Qed.

Lemma model_views_admin_only_witness :
  handle_view (mkRegistered admin_utils.NetworkView "Network")
    (LoggedIn Sample.alice) Sample.store "index_view" "/admin/network/"
  = Redirect (url_for_security "login" [("next", "/admin/network/")])
  /\ handle_view (mkRegistered admin_utils.NetworkView "Network")
       (LoggedIn Sample.root) Sample.store "index_view" "/admin/network/"
     = ModelList "Network" ["blob"; "sha512"; "authors"; "description";
                            "copyright"; "disclaimer"; "licenses"].
Proof.
  assert (Hnot : view_model (mkRegistered admin_utils.NetworkView "Network")
                 <> "Project") by discriminate.
  assert (Hin : In (mkRegistered admin_utils.NetworkView "Network")
                   application_utils._build_admin_service).
  { simpl. tauto. }
  destruct (model_views_admin_only
              (mkRegistered admin_utils.NetworkView "Network")
              (LoggedIn Sample.alice) Sample.store "index_view"
              "/admin/network/" Hnot) as (Ha & _ & _).
  destruct (model_views_admin_only
              (mkRegistered admin_utils.NetworkView "Network")
              (LoggedIn Sample.root) Sample.store "index_view"
              "/admin/network/" Hnot) as (Hr & _ & _).
  destruct (Ha Hin) as (_ & _ & Hno). destruct (Hr Hin) as (_ & Hyes & _).
  split; [apply Hno|apply Hyes]; reflexivity.
Defined.

(** C3 as the claim has it fails for the project view: it is among the
    registered views, and Alice, who is no admin, is shown the table of her
    projects. *)
Lemma project_view_open_to_members :
  In (mkRegistered application_utils.ProjectView "Project")
     application_utils._build_admin_service
  /\ is_admin Sample.alice = false
  /\ is_accessible application_utils.ProjectView (LoggedIn Sample.alice) = true
  /\ handle_view (mkRegistered application_utils.ProjectView "Project")
       (LoggedIn Sample.alice) Sample.store "index_view" "/admin/project/"
     = ProjectList [mkProject 1 "Growth" [1] [1]].
Proof.
  split; [simpl; tauto|]. vm_compute. repeat split.
Qed.

(** ** parse_by_url *)

(** X1: the task never raises.  A URL that cannot be parsed gives the
    parse-failure text and leaves the world, the open session included, as
    it was; a failed insertion gives the insert-failure text after a
    rollback; a successful one gives the key of the new network, stored
    and committed.  The session is closed in the last two cases. *)
Theorem parse_by_url_never_raises pybel url w :
  let out := parse_by_url pybel url w in
  ((exists e, from_url pybel url = Raise e)
   /\ out = (Return (PyStr ("Parsing failed for " +:+ url +:+ ". ")), w))
  \/ (exists graph e,
        from_url pybel url = Return graph
        /\ insert_graph_default pybel graph (pending (session w)) = Raise e
        /\ out.1 = Return (PyStr ("Inserting failed for " +:+ url))
        /\ pending (session out.2) = persisted (session w)
        /\ persisted (session out.2) = persisted (session w)
        /\ closed (session out.2) = true)
  \/ (exists graph network,
        from_url pybel url = Return graph
        /\ insert_graph_default pybel graph (pending (session w)) = Return network
        /\ out.1 = Return (PyInt (network_id network))
        /\ networks (persisted (session out.2))
           = (networks (pending (session w)) ++ [network])%list
        /\ pending (session out.2) = persisted (session out.2)
        /\ closed (session out.2) = true).
Proof.
  unfold parse_by_url.
  destruct (from_url pybel url) as [graph|e] eqn:Hu; simpl.
  - run_task.
    destruct (insert_graph_default pybel graph (pending (session w)))
      as [network|e] eqn:Hi; simpl.
    + right. right. exists graph, network. repeat split; assumption.
    + right. left. exists graph, e. repeat split; assumption.
  - left. split; [eauto|reflexivity].
Qed.

(** ** async_parser past the header check *)

Lemma enrich_clean_enriched ext report graph w :
  clean w -> enrich ext report graph w = (Return (enriched ext report graph), w).
Proof.
  intros Hc. unfold enrich, enriched.
  destruct (run_mutators _ graph) as [graph' [e|]]; [|reflexivity].
  destruct e; unfold bind, ret; try rewrite (rollback_clean _ Hc); reflexivity.
Qed.

(** X3: when one stored network has the name and the version of the
    uploaded graph, the upload is never inserted: whatever the task returns
    or raises, the stored networks keep their keys and their blobs, and the
    outcome is the same whatever [manager.insert_graph] would do. *)
Theorem async_parser_duplicate_never_inserted ext i w report graph network :
  accepted ext i w report graph ->
  same_name_version graph (pending (session w)) = [network] ->
  let out := async_parser ext i w in
  map network_id (networks (pending (session out.2)))
  = map network_id (networks (pending (session w)))
  /\ map blob (networks (pending (session out.2)))
     = map blob (networks (pending (session w)))
  /\ forall ins, async_parser (set_insert_graph ins ext) i w = out.
Proof.
  intros Ha Hd out. subst out.
  rewrite (async_parser_duplicate _ _ _ _ _ _ Ha Hd).
  destruct (existing_network ext report graph network (tick w)) as [r w'] eqn:He.
  destruct (existing_network_keeps_networks _ _ _ _ _ _ _ He) as [Hi Hb].
  split; [exact Hi|]. split; [exact Hb|].
  intros ins. rewrite <- He.
  apply (async_parser_duplicate (set_insert_graph ins ext)); [|exact Hd].
  exact Ha.
Qed.

Lemma async_parser_duplicate_never_inserted_witness :
  map network_id
    (networks (pending (session (async_parser (Sample.ext true) 2 Sample.world).2)))
  = [1].
Proof.
  destruct (async_parser_duplicate_never_inserted (Sample.ext true) 2
              Sample.world (Sample.new_report 2 Sample.bob "copy.bel")
              {| name := Some "EGF"; version := Some "1.0.0";
                 document := [("name", "EGF"); ("version", "1.0.0")];
                 content := [9; 9] |} Sample.egf) as (H & _).
  - repeat split.
  - reflexivity.
  - rewrite H. reflexivity.
Defined.

(** X4: an upload under the name and version of a network that the same
    user uploaded fails with the integrity message: it is returned and
    stored in the report, the only mail is the failure notice to that user
    (when mail is installed), and the stored networks and their users are
    untouched. *)
Theorem async_parser_same_user_duplicate ext i w report graph network owner :
  accepted ext i w report graph ->
  same_name_version graph (pending (session w)) = [network] ->
  network_report network (pending (session w)) = Some owner ->
  user_id (report_user owner) = user_id (report_user report) ->
  let body := integrity_message (str_opt (name graph)) (str_opt (version graph)) in
  let out := async_parser ext i w in
  out.1 = Return (PyStr body)
  /\ get_report i (persisted (session out.2)) = Some (set_message body report)
  /\ networks (persisted (session out.2)) = networks (pending (session w))
  /\ outbox out.2 =
     (outbox w ++ if app_mail ext
                  then [notification report
                          ("Uploading Failed for " +:+ source_name report) body]
                  else [])%list.
Proof.
  intros Ha Hd Ho Hu body out. subst out body.
  rewrite (async_parser_duplicate _ _ _ _ _ _ Ha Hd).
  destruct Ha as (H & _).
  assert (Hrun : existing_network ext report graph network (tick w)
                 = finish_parsing ext report
                     ("Uploading Failed for " +:+ source_name report)
                     (integrity_message (str_opt (name graph))
                        (str_opt (version graph))) true (tick w)).
  { unfold existing_network. unfold bind at 1, current_db at 1. simpl.
    rewrite Ho, Hu, Z.eqb_refl. reflexivity. }
  rewrite Hrun, finish_parsing_run. simpl.
  rewrite (get_report_id _ _ _ H).
  repeat split. apply get_report_set_message. exact H.
Qed.

Lemma async_parser_same_user_duplicate_witness :
  (async_parser (Cases.ext true false None) 6 Cases.world).1
  = Return (PyStr (integrity_message "EGF" "1.0.0"))
  /\ map recipients (outbox (async_parser (Cases.ext true false None) 6 Cases.world).2)
     = [["alice@example.org"]].
Proof.
  destruct (async_parser_same_user_duplicate (Cases.ext true false None) 6
              Cases.world (Sample.new_report 6 Sample.alice "egf-again.bel")
              Cases.egf_graph Sample.egf Sample.first_report)
    as (H1 & _ & _ & H4); try reflexivity.
  - repeat split.
  - split; [exact H1|]. rewrite H4. reflexivity.
Defined.

(** X5: on the espionage branch the mail extension is read without the
    test that [make_mail] applies.  When the stored network was uploaded by
    another user, the two hashes of line 220 differ and no mail extension
    is installed, the task raises [KeyError] for ['mail'] before anything
    is written: the report's message stays as it was. *)
Theorem async_parser_espionage_without_mail ext i w report graph network owner :
  accepted ext i w report graph ->
  same_name_version graph (pending (session w)) = [network] ->
  network_report network (pending (session w)) = Some owner ->
  user_id (report_user owner) <> user_id (report_user report) ->
  sha1_hexdigest ext (blob network)
    <> sha1_hexdigest ext (to_bytes ext (ObjNetwork network)) ->
  app_mail ext = false ->
  async_parser ext i w = (Raise (KeyError "mail"), tick w).
Proof.
  intros Ha Hd Ho Hu Hh Hm.
  rewrite (async_parser_duplicate _ _ _ _ _ _ Ha Hd).
  unfold existing_network, send_message_unguarded.
  unfold bind at 1, current_db at 1. simpl. rewrite Ho.
  apply Z.eqb_neq in Hu. rewrite Hu.
  apply String.eqb_neq in Hh. rewrite Hh, Hm. reflexivity.
Qed.

Lemma async_parser_espionage_without_mail_witness :
  (async_parser (Cases.ext false true None) 2 Cases.world).1
  = Raise (KeyError "mail")
  /\ message <$> get_report 2
       (pending (session (async_parser (Cases.ext false true None) 2 Cases.world).2))
     = Some None.
Proof.
  rewrite (async_parser_espionage_without_mail (Cases.ext false true None) 2
             Cases.world (Sample.new_report 2 Sample.bob "copy.bel")
             {| name := Some "EGF"; version := Some "1.0.0";
                document := [("name", "EGF"); ("version", "1.0.0")];
                content := [9; 9] |} Sample.egf Sample.first_report).
  - split; reflexivity.
  - repeat split.
  - reflexivity.
  - reflexivity.
  - discriminate.
  - discriminate.
  - reflexivity.
Defined.

(** X6: a stored network that no report belongs to (one stored by
    [parse_by_url]) makes every upload under its name and version raise
    [AttributeError] at line 217, before anything is written. *)
Theorem async_parser_network_without_report ext i w report graph network :
  accepted ext i w report graph ->
  same_name_version graph (pending (session w)) = [network] ->
  network_report network (pending (session w)) = None ->
  async_parser ext i w = (Raise AttributeError, tick w).
Proof.
  intros Ha Hd Ho.
  rewrite (async_parser_duplicate _ _ _ _ _ _ Ha Hd).
  unfold existing_network. unfold bind at 1, current_db at 1. simpl.
  rewrite Ho. reflexivity.
Qed.

Lemma async_parser_network_without_report_witness :
  (async_parser (Cases.ext true false None) 8 Cases.world).1 = Raise AttributeError.
Proof.
  rewrite (async_parser_network_without_report (Cases.ext true false None) 8
             Cases.world (Sample.new_report 8 Sample.bob "orphan.bel")
             Cases.orphan_graph Cases.orphan).
  - reflexivity.
  - repeat split.
  - reflexivity.
  - reflexivity.
Defined.





(** *** The reports of other uploads *)

Lemma get_report_update_other i j f db :
  j <> i ->
  (forall r, report_id r = i -> report_id (f r) = i) ->
  get_report j (update_report i f db) = get_report j db.
Proof.
  intros Hj Hf. unfold get_report, update_report, with_reports. simpl.
  induction (reports db) as [|x rs IH]; simpl; [reflexivity|].
  destruct (report_id x =? i) eqn:E.
  - apply Z.eqb_eq in E.
    assert ((report_id (f x) =? j) = false) as -> by (apply Z.eqb_neq; rewrite Hf; auto).
    assert ((report_id x =? j) = false) as -> by (apply Z.eqb_neq; congruence).
    exact IH.
  - destruct (report_id x =? j); [reflexivity|exact IH].
Qed.

Lemma other_reports_kept_refl i db : other_reports_kept i db db.
Proof. intros j _. reflexivity. Qed.

Lemma other_reports_kept_message i body db :
  other_reports_kept i db (update_report i (set_message body) db).
Proof. intros j Hj. apply get_report_update_other; auto. Qed.

Lemma report_frame_refl i w : clean w -> report_frame i w w.
Proof. intros Hc. split; [apply other_reports_kept_refl|symmetry; exact Hc]. Qed.

Lemma finish_parsing_kept ext report subject body flag w :
  report_frame (report_id report) w
    (finish_parsing ext report subject body flag w).2.
Proof.
  rewrite finish_parsing_run. simpl.
  split; [apply other_reports_kept_message|reflexivity].
Qed.

Lemma existing_network_kept ext report graph network w :
  clean w ->
  report_frame (report_id report) w
    (existing_network ext report graph network w).2.
Proof.
  intros Hc. unfold existing_network, send_message_unguarded.
  unfold bind at 1, current_db at 1.
  destruct (network_report network (pending (session w)));
    [|apply report_frame_refl; exact Hc].
  destruct (_ =? _); [apply finish_parsing_kept|].
  destruct (negb _).
  - destruct (app_mail ext).
    + unfold bind at 1, send at 1, modify at 1.
      match goal with
      | |- context [finish_parsing ?e ?r ?s ?b ?f ?w0] =>
          destruct (finish_parsing_kept e r s b f w0) as [Hk Hp]
      end.
      split; [exact Hk|exact Hp].
    + apply report_frame_refl; exact Hc.
  - unfold bind at 1, modify at 1. unfold bind at 1, commit at 1, modify at 1.
    match goal with
    | |- context [finish_parsing ?e ?r ?s ?b ?f ?w0] =>
        destruct (finish_parsing_kept e r s b f w0) as [Hk Hp]
    end.
    split; [|exact Hp]. intros j Hj. rewrite (Hk j Hj). reflexivity.
Qed.

(** X2: the task writes to no report but its own.  When it starts from a
    session without uncommitted changes and [fill_out_report] keeps the key
    of the report it fills, then whatever the task returns or raises, every
    other report is afterwards what it was, and what the session holds is
    committed. *)
Theorem async_parser_touches_only_its_report ext i w :
  clean w ->
  (forall n r s r', fill_out_report ext n r s = Return r' -> report_id r' = report_id r) ->
  let out := async_parser ext i w in
  other_reports_kept i (pending (session w)) (pending (session out.2))
  /\ persisted (session out.2) = pending (session out.2).
Proof.
  intros Hc Hfill out. subst out.
  change (report_frame i w (async_parser ext i w).2).
  unfold async_parser.
  unfold bind at 1, time_now at 1.
  unfold bind at 1, current_db at 1. simpl. fold (tick w).
  assert (Hct : clean (tick w)) by exact Hc.
  destruct (get_report i (pending (session w))) as [report|] eqn:H;
    [|exact (report_frame_refl i (tick w) Hct)].
  pose proof (get_report_id _ _ _ H) as Hid. subst i.
  assert (Hfin : forall s b flag,
            report_frame (report_id report) w
              (finish_parsing ext report s b flag (tick w)).2).
  { intros s b flag. apply (finish_parsing_kept ext report s b flag (tick w)). }
  destruct (parse_graph ext report) as [graph|e]; [|apply Hfin].
  destruct (negb (truthy (name graph))); [apply Hfin|].
  destruct (negb (truthy (version graph))); [apply Hfin|].
  destruct (problem graph); [|apply Hfin].
  unfold bind at 1, lift at 1.
  destruct (one_or_none _) as [[network|]|e];
    [| |exact (report_frame_refl _ (tick w) Hct)].
  - apply (existing_network_kept ext report graph network (tick w) Hct).
  - unfold bind at 1.
    rewrite (enrich_clean_enriched ext report graph (tick w) Hct).
    unfold bind at 1.
    destruct (store_graph ext report (enriched ext report graph) (tick w))
      as [r w1] eqn:Hst.
    unfold store_graph in Hst. unfold bind at 1, current_db at 1 in Hst.
    destruct (insert_graph ext _ _ (pending (session (tick w)))) as [network|e].
    + injection Hst as <- <-.
      match goal with
      | |- context [make_report ?e ?t ?r ?g ?n ?w0] =>
          destruct (make_report e t r g n w0) as [r2 w2] eqn:Hm
      end.
      apply make_report_cases in Hm. simpl in Hm. simpl.
      destruct Hm as [(filled & Hf & _ & Hp & Hq & _)|(_ & Hp & Hq & _)].
      * split; [|exact Hq].
        intros j Hj. rewrite Hp. rewrite get_report_update_other; auto.
        intros r _. simpl. eapply Hfill. exact Hf.
      * split; [|rewrite Hp, Hq; reflexivity].
        intros j Hj. rewrite Hp. reflexivity.
    + assert (Hr : exists s b,
                (let* v := finish_parsing ext report s b true in
                 ret (inr v)) (tick w) = (r, w1)).
      { destruct e; unfold bind at 1 in Hst;
          rewrite (rollback_clean _ Hct) in Hst; eauto. }
      destruct Hr as (s & b & Hr).
      unfold bind, ret in Hr. rewrite finish_parsing_run in Hr.
      injection Hr as <- <-. simpl.
      split; [apply other_reports_kept_message|reflexivity].
Qed.

Lemma async_parser_touches_only_its_report_witness :
  get_report 1 (pending (session (async_parser (Sample.ext true) 3 Sample.world).2))
  = Some Sample.first_report.
Proof.
  destruct (async_parser_touches_only_its_report (Sample.ext true) 3 Sample.world)
    as [H _].
  - reflexivity.
  - intros n r s r' [= <-]. reflexivity.
  - rewrite (H 1); [reflexivity|discriminate].
Defined.

(** ** merge_project and run_cmpa: the runs that end in an exception *)

(** X9: [merge_project] reads [project.networks] and [user.email] of rows
    it never tests for [None].  When the project is not stored the task
    raises [AttributeError] before anything else is done.  When the
    application has a mail extension and the user is not stored, the task
    ends in an exception with no message sent and no file written.
    Without a mail extension the user is never looked at: the run is the
    same for every user key. *)
Theorem merge_project_raises ext user_id project_id w :
  let db := pending (session w) in
  let out := merge_project ext user_id project_id w in
  (get_project project_id db = None ->
   out.1 = Raise AttributeError
   /\ files out.2 = files w /\ outbox out.2 = outbox w
   /\ session out.2 = session w)
  /\ (app_mail ext = true -> get_user user_id db = None ->
      (exists e, out.1 = Raise e)
      /\ files out.2 = files w /\ outbox out.2 = outbox w
      /\ session out.2 = session w)
  /\ (app_mail ext = false ->
      forall other, merge_project ext other project_id w = out).
Proof.
  intros db out. subst db out. unfold merge_project. run_task.
  split; [intros ->; repeat split|].
  split.
  - intros -> ->.
    destruct (get_project project_id (pending (session w))); simpl;
      repeat split; eauto.
  - intros -> other.
    destruct (get_project project_id (pending (session w))); reflexivity.
Qed.

(** X10: [run_cmpa] raises before anything is staged when the experiment
    is not stored ([AttributeError]), when its query is not stored
    ([AttributeError]), and when the frame has no column under the
    experiment's gene label ([KeyError] for that label, also for a frame
    without rows): the world is then left exactly as it was, the session
    neither written nor closed and nothing sent. *)
Theorem run_cmpa_raises_before_staging ext i w :
  let db := pending (session w) in
  let out := run_cmpa ext i w in
  (get_experiment i db = None -> out = (Raise AttributeError, w))
  /\ (forall experiment, get_experiment i db = Some experiment ->
      (get_query (query_id experiment) db = None ->
       out = (Raise AttributeError, w))
      /\ (forall query, get_query (query_id experiment) db = Some query ->
          gene_column experiment ∉ frame_columns (loads ext (source experiment)) ->
          out = (Raise (KeyError (gene_column experiment)), w))).
Proof.
  intros db out. subst db out. unfold run_cmpa. run_task.
  split; [intros ->; reflexivity|].
  intros experiment ->. split; [intros ->; reflexivity|].
  intros query -> Hg. unfold gene_data.
  rewrite bool_decide_eq_false_2 by exact Hg. reflexivity.
Qed.

Lemma run_cmpa_raises_before_staging_witness :
  let out := run_cmpa (Cases.ext true false None) 1 Cases.world in
  frame_rows (loads (Cases.ext true false None) (source Sample.trial)) <> []
  /\ out = (Raise (KeyError "gene"), Cases.world).
Proof.
  intros out. split; [discriminate|].
  destruct (run_cmpa_raises_before_staging (Cases.ext true false None) 1
              Cases.world) as (_ & H).
  destruct (H Sample.trial eq_refl) as (_ & Hk).
  apply (Hk Sample.stored_query eq_refl).
  vm_compute. intros Hin. repeat (inversion Hin as [|? ? ? Hin']; subst; clear Hin; rename Hin' into Hin).
Defined.

Lemma dict_of_snoc kvs kv : dict_of (kvs ++ [kv]) = <[kv.1 := kv.2]> (dict_of kvs).
Proof. unfold dict_of. rewrite foldl_app. reflexivity. Qed.

(** The dictionary comprehension over the selected rows: a gene maps to the
    value of the last row of the frame that names it. *)
Lemma dict_of_gene_rows (g d : string) (rows : list (string -> option string)) k :
  dict_of (omap (fun row : string -> option string =>
                   match row g with
                   | Some k => Some (k, row d)
                   | None => None
                   end) rows) !! k
  = (fun row : string -> option string => row d)
      <$> last (List.filter (fun row : string -> option string =>
                               bool_decide (row g = Some k)) rows).
Proof.
  induction rows as [|r rows IH] using rev_ind; [reflexivity|].
  rewrite omap_app, List.filter_app. simpl.
  destruct (r g) as [k'|] eqn:Hr; simpl.
  - rewrite dict_of_snoc. simpl. case_bool_decide as E.
    + injection E as ->. rewrite lookup_insert_eq, last_snoc. reflexivity.
    + rewrite lookup_insert_ne by congruence. rewrite app_nil_r. exact IH.
  - rewrite ?app_nil_r. exact IH.
Qed.

(** X11: for a stored experiment whose query is stored and whose frame has
    the two columns, what [run_cmpa] hands to [calculate_scores] is the
    dictionary that maps a gene to the value of the last row of the frame
    with that gene, in row order, rows without a gene being left out; the
    result committed with the experiment is the pickle of the scores
    computed from it. *)
Theorem run_cmpa_data_last_row ext i w experiment query :
  get_experiment i (pending (session w)) = Some experiment ->
  get_query (query_id experiment) (pending (session w)) = Some query ->
  let df := loads ext (source experiment) in
  gene_column experiment ∈ frame_columns df ->
  data_column experiment ∈ frame_columns df ->
  exists data : gmap string (option string),
    (forall k,
       data !! k
       = (fun row : string -> option string => row (data_column experiment))
           <$> last (List.filter
                       (fun row : string -> option string =>
                          bool_decide (row (gene_column experiment) = Some k))
                       (frame_rows df)))
    /\ let scores := calculate_scores ext
                       (query_run ext query (pending (session w))) data
                       (permutations experiment) in
       (commit_outcome ext
          (update_experiment i (set_result (dumps ext scores))
             (pending (session w))) = None ->
        experiment_result
          <$> get_experiment i (persisted (session (run_cmpa ext i w).2))
        = Some (Some (dumps ext scores))).
Proof.
  intros H Hq df Hg Hd. subst df.
  eexists. split; [intros k; apply dict_of_gene_rows|].
  intros scores Hk. subst scores.
  unfold run_cmpa, guarded_commit, gene_data. run_task.
  rewrite H, Hq.
  rewrite !bool_decide_eq_true_2 by assumption. simpl.
  rewrite Hk. simpl.
  destruct (app_mail ext); simpl;
    rewrite get_experiment_update by reflexivity; rewrite H; reflexivity.
Qed.

Lemma run_cmpa_data_last_row_witness :
  exists data : gmap string (option string),
    data !! "EGFR" = Some (Some "3.5")
    /\ data !! "TP53" = Some None
    /\ data !! "MAPT" = None.
Proof.
  destruct (run_cmpa_data_last_row (Sample.ext true) 1 Sample.world Sample.trial
              Sample.stored_query eq_refl eq_refl) as (data & Hdata & _).
  - apply list_elem_of_In. left. reflexivity.
  - apply list_elem_of_In. right. left. reflexivity.
  - exists data. rewrite !Hdata. repeat split.
Defined.

(** ** The network loaders *)

Lemma all_length q db : (length (all q db) <= query_limit q)%nat.
Proof. unfold all. apply firstn_le_length. Qed.

Lemma all_one_page q db n :
  In n (List.filter (fun n => forallb (fun c => c n) (criteria q)) (networks db)) ->
  exists offset,
    all {| criteria := criteria q; query_offset := offset; query_limit := 1 |} db
    = [n].
Proof.
  intros H. apply in_split in H. destruct H as (l1 & l2 & H).
  exists (length l1). unfold all. simpl. rewrite H.
  rewrite skipn_app, Nat.sub_diag, skipn_all. reflexivity.
Qed.

(** X12: a page of [NetworkAjaxModelLoader.get_list] has at most [limit]
    rows, and each row is a stored network whose name matches the term,
    whoever asks.  For an admin no matching network is out of reach: each
    one is the row of some page of size one. *)
Theorem get_list_page web user db term offset limit :
  (length (get_list web user db term offset limit) <= limit)%nat
  /\ (forall n, In n (get_list web user db term offset limit) ->
      In n (networks db) /\ ilike web (network_name n) term = true)
  /\ (is_admin user = true ->
      forall n, In n (networks db) -> ilike web (network_name n) term = true ->
      exists offset', get_list web user db term offset' 1 = [n]).
Proof.
  unfold get_list, get_list_query.
  split; [|split].
  - destruct (negb (is_admin user)); [case_bool_decide as He|];
      simpl; try lia;
      match goal with |- context [all ?q db] => apply (all_length q db) end.
  - intros n.
    destruct (negb (is_admin user)); [case_bool_decide as He|]; simpl;
      try (intros []);
      intros Hn; apply all_In in Hn; destruct Hn as [Hin Hc];
      (split; [exact Hin|]);
      apply (Hc (fun n : Network => ilike web (network_name n) term));
      simpl; auto.
  - intros -> n Hin Hterm. simpl.
    apply (all_one_page
             {| criteria := [fun n : Network => ilike web (network_name n) term];
                query_offset := offset; query_limit := limit |} db n).
    apply filter_In. split; [exact Hin|]. simpl. rewrite Hterm. reflexivity.
Qed.

(** X13: the loader of the older admin service offers a user without the
    [admin] flag only stored networks that carry the key of a network the
    user owns; each of them is also among the keys that the loader of
    [build_network_ajax_manager] allows that user. *)
Theorem older_get_list_owned web user db term offset limit n :
  admin user = false ->
  In n (admin_service_loader.get_list web user db term offset limit) ->
  In n (networks db)
  /\ ilike web (network_name n) term = true
  /\ (exists m, In m (get_owned_networks web user db)
                /\ network_id m = network_id n)
  /\ network_id n ∈ allowed_network_ids web user db.
Proof.
  intros Hadmin. unfold admin_service_loader.get_list. rewrite Hadmin. simpl.
  intros H. apply all_In in H. destruct H as [Hin Hc].
  assert (Hterm := Hc (fun n : Network => ilike web (network_name n) term)
                      (or_introl eq_refl)).
  assert (Hown := Hc _ (or_intror (or_introl eq_refl))).
  simpl in Hterm, Hown.
  apply bool_decide_eq_true_1, list_elem_of_In, in_map_iff in Hown.
  destruct Hown as (m & E & Hm).
  split; [exact Hin|]. split; [exact Hterm|]. split; [eauto|].
  apply elem_of_allowed_network_ids. left. exists m. auto.
Qed.

Lemma older_get_list_owned_witness :
  In Sample.egf (networks Sample.store)
  /\ 1 ∈ allowed_network_ids Sample.web Sample.alice Sample.store.
Proof.
  destruct (older_get_list_owned Sample.web Sample.alice Sample.store "EG"
              0 10 Sample.egf eq_refl) as (H1 & _ & _ & H2).
  - left. reflexivity.
  - split; [exact H1|exact H2].
Defined.

(** ** The routes that store a query *)

(** What [manager.session.add(query)] and [commit()] leave behind. *)
Lemma add_query_run q w :
  let db := pending (session w) in
  let i := next_query_id db in
  let out := add_query q w in
  out.1 = Return i
  /\ get_query i db = None
  /\ get_query i (persisted (session out.2)) = Some (set_query_id i q)
  /\ (forall j q', get_query j db = Some q' ->
      get_query j (persisted (session out.2)) = Some q')
  /\ pending (session out.2) = persisted (session out.2)
  /\ networks (persisted (session out.2)) = networks db.
Proof.
  intros db i out. subst db i out. unfold add_query. run_task.
  split; [reflexivity|]. split; [apply get_query_fresh|].
  split; [|split; [|split; reflexivity]].
  - pose proof (get_query_fresh (pending (session w))) as Hf.
    unfold get_query in *. simpl. rewrite find_app_r by exact Hf.
    simpl. rewrite Z.eqb_refl. reflexivity.
  - intros j q' H. unfold get_query in *. simpl. apply find_app_l. exact H.
Qed.

(** X14: for a network the user has rights on, [view_explore_network]
    stores the query built by [Query.from_query_args] under a key that no
    stored query had, commits, and redirects to the explorer of that key:
    the key of the redirect, looked up afterwards, gives the query just
    built, and every query stored before is still found under its key. *)
Theorem view_explore_network_round_trip web cu network_id w :
  network_id ∈ get_network_ids_with_permission_helper web cu (pending (session w)) ->
  let db := pending (session w) in
  let out := view_explore_network web cu network_id w in
  exists i,
    out.1 = Return (Redirect (url_for "view_explorer_query"
                                [("query_id", str_Z i)]))
    /\ get_query i db = None
    /\ get_query i (persisted (session out.2))
       = Some (set_query_id i (from_query_args web db network_id cu))
    /\ (forall j q, get_query j db = Some q ->
        get_query j (persisted (session out.2)) = Some q)
    /\ pending (session out.2) = persisted (session out.2).
Proof.
  intros H db out. subst db out.
  exists (next_query_id (pending (session w))).
  destruct (add_query_run
              (from_query_args web (pending (session w)) network_id cu) w)
    as (H1 & H2 & H3 & H4 & H5 & _).
  assert (Hrun : view_explore_network web cu network_id w
                 = (Return (Redirect (url_for "view_explorer_query"
                      [("query_id", str_Z (next_query_id (pending (session w))))])),
                    (add_query (from_query_args web (pending (session w))
                                  network_id cu) w).2)).
  { unfold view_explore_network, add_query. run_task.
    rewrite bool_decide_eq_true_2 by exact H. reflexivity. }
  rewrite Hrun. simpl. auto.
Qed.

Lemma view_explore_network_round_trip_witness :
  exists i,
    (view_explore_network Sample.web (LoggedIn Sample.root) 1 Sample.world).1
    = Return (Redirect (url_for "view_explorer_query" [("query_id", str_Z i)]))
    /\ get_query i Sample.store = None.
Proof.
  destruct (view_explore_network_round_trip Sample.web (LoggedIn Sample.root) 1
              Sample.world) as (i & H1 & H2 & _).
  - vm_compute. reflexivity.
  - exists i. split; [exact H1|exact H2].
Defined.

(** X15: [build_summary_link_query] never asks whether the user has rights
    on the network: whatever [get_network_ids_with_permission_helper]
    answers, the route stores a query over that one network, seeded by
    induction over the nodes of the request, under a fresh key, and
    redirects to its explorer. *)
Theorem build_summary_link_query_unchecked web helper get_node_tuple_by_hash
    add_seed_induction cu node_hashes network_id w :
  let db := pending (session w) in
  let i := next_query_id db in
  let out := build_summary_link_query (set_permission_helper helper web)
               get_node_tuple_by_hash add_seed_induction cu node_hashes
               network_id w in
  out = build_summary_link_query web get_node_tuple_by_hash add_seed_induction
          cu node_hashes network_id w
  /\ out.1 = Return (Redirect (url_for "view_explorer_query"
                                 [("query_id", str_Z i)]))
  /\ get_query i db = None
  /\ get_query i (persisted (session out.2))
     = Some (set_query_id i
               (from_query web db
                  (add_seed_induction (map get_node_tuple_by_hash node_hashes)
                     ([network_id], [], [])) cu)).
Proof.
  intros db i out. subst db i out.
  destruct (add_query_run
              (from_query web (pending (session w))
                 (add_seed_induction (map get_node_tuple_by_hash node_hashes)
                    ([network_id], [], [])) cu) w)
    as (H1 & H2 & H3 & _).
  split; [reflexivity|]. split; [reflexivity|]. split; [exact H2|].
  exact H3.
Qed.

(** ** view_summary *)

(** X16: for a network the user has rights on, [view_summary] never
    raises and writes nothing to the session.  Either the stored blob is
    read and the summary of its graph is shown with nothing flashed, or
    the network is not stored or its blob cannot be read, and then exactly
    one error is flashed and the user is sent to the list of networks. *)
Theorem view_summary_permitted web cu network_id w :
  network_id ∈ get_network_ids_with_permission_helper web cu (pending (session w)) ->
  let db := pending (session w) in
  let out := view_summary web cu network_id w in
  session out.2 = session w
  /\ ((exists network graph,
         get_network_by_id network_id db = Some network
         /\ from_bytes web (blob network) (PYBEL_DS_CHECK_VERSION web) = Return graph
         /\ out.1 = Return (NetworkSummary network_id graph)
         /\ flashes out.2 = flashes w)
      \/ ((get_network_by_id network_id db = None
           \/ exists network e,
                get_network_by_id network_id db = Some network
                /\ from_bytes web (blob network) (PYBEL_DS_CHECK_VERSION web)
                   = Raise e)
          /\ out.1 = Return (Redirect (url_for "view_networks" []))
          /\ exists message,
               flashes out.2 = (flashes w ++ [(message, "error")])%list)).
Proof.
  intros H db out. subst db out. unfold view_summary, flash. run_task.
  rewrite bool_decide_eq_true_2 by exact H. simpl.
  destruct (get_network_by_id network_id (pending (session w))) as [network|];
    simpl.
  - destruct (from_bytes web (blob network) (PYBEL_DS_CHECK_VERSION web))
      as [graph|e] eqn:Hb; simpl.
    + split; [reflexivity|]. left. exists network, graph. auto.
    + split; [reflexivity|]. right. split; [right; eauto|].
      split; [reflexivity|]. eauto.
  - split; [reflexivity|]. right. split; [left; reflexivity|].
    split; [reflexivity|]. eauto.
Qed.

Lemma view_summary_permitted_witness :
  (view_summary Sample.web (LoggedIn Sample.root) 1 Sample.world).1
  = Return (NetworkSummary 1
              {| name := None; version := None; document := [];
                 content := [1; 2; 3] |}).
Proof.
  destruct (view_summary_permitted Sample.web (LoggedIn Sample.root) 1
              Sample.world) as (_ & [(network & graph & Hn & Hb & Hr & _)|(_ & Hr & _)]).
  - vm_compute. reflexivity.
  - rewrite Hr. injection Hn as <-. injection Hb as <-. reflexivity.
  - discriminate Hr.
Defined.

(** ** The evidence pages *)

Lemma filter_snoc {A} (p : A -> bool) l x :
  List.filter p (l ++ [x]) = (List.filter p l ++ if p x then [x] else [])%list.
Proof. rewrite List.filter_app. simpl. destruct (p x); reflexivity. Qed.

Lemma appended_snoc {A} (l : list A) x :
  Some (default [] (appended l) ++ [x])%list = appended (l ++ [x]).
Proof. destruct l; reflexivity. Qed.

Lemma collect_groups relations t :
  let grouped := foldl collect (∅, ∅) relations in
  let hits := List.filter (quoting t) relations in
  grouped.1 !! t = appended (map edge_data hits)
  /\ grouped.2 !! t = citation <$> (last hits ≫= evidence).
Proof.
  induction relations as [|x rs IH] using rev_ind; [split; reflexivity|].
  cbv zeta in *. rewrite foldl_app, filter_snoc. simpl.
  destruct IH as [IH1 IH2].
  set (acc := foldl collect (∅, ∅) rs) in *.
  set (hits := List.filter (quoting t) rs) in *.
  unfold collect.
  destruct (quoting t x) eqn:Q; unfold quoting in Q;
    destruct (evidence x) as [e|] eqn:He; try discriminate; simpl.
  - apply String.eqb_eq in Q. subst t.
    rewrite !lookup_insert_eq, IH1, map_app, last_snoc. simpl.
    rewrite He. split; [apply appended_snoc|reflexivity].
  - apply String.eqb_neq in Q.
    rewrite !lookup_insert_ne by exact Q. rewrite app_nil_r. auto.
  - rewrite app_nil_r. auto.
Qed.

(** X17: what [serve_relations] hands to the template.  Under an evidence
    text stand the data of the relations that quote it, in the order of the
    relations, and the text is a key only when some relation quotes it; the
    citation under the text is that of the last such relation.  Relations
    without evidence are left out. *)
Theorem serve_relations_groups relations source target t :
  exists page,
    serve_relations relations (Some source) target = Return page
    /\ source_bel page = bel source
    /\ target_bel page = bel <$> target
    /\ data page !! t
       = appended (map edge_data (List.filter (quoting t) relations))
    /\ ev2cit page !! t
       = citation <$> (last (List.filter (quoting t) relations) ≫= evidence).
Proof.
  unfold serve_relations. eexists. split; [reflexivity|]. simpl.
  destruct (collect_groups relations t) as [H1 H2].
  split; [reflexivity|]. split; [destruct target; reflexivity|]. auto.
Qed.

(** X18: the two evidence pages.  For a known source node,
    [view_relations] shows the edges from the source to the target,
    followed, when the request has the argument [undirected], by those from
    the target to the source; [view_node] shows the edges out of the node
    followed by the edges into it.  A hash that no node has does not give a
    404: as the source it makes both routes raise [AttributeError], and as
    the target it lifts the restriction on the target. *)
Theorem evidence_pages manager request_args source_id target_id source :
  get_node_by_hash manager source_id = Some source ->
  let target := get_node_by_hash manager target_id in
  let forward := query_edges manager (Some source) target in
  let backward := query_edges manager target (Some source) in
  view_relations manager request_args source_id target_id
  = serve_relations
      (if bool_decide ("undirected" ∈ request_args)
       then forward ++ backward else forward)%list
      (Some source) target
  /\ view_node manager source_id
     = serve_relations
         (query_edges manager (Some source) None
          ++ query_edges manager None (Some source))%list
         (Some source) None
  /\ (target = None ->
      view_relations manager [] source_id target_id
      = serve_relations (query_edges manager (Some source) None)
          (Some source) None)
  /\ (forall unknown, get_node_by_hash manager unknown = None ->
      view_node manager unknown = Raise AttributeError
      /\ view_relations manager request_args unknown target_id
         = Raise AttributeError).
Proof.
  intros H target forward backward. subst target forward backward.
  unfold view_relations, view_node. rewrite H.
  split; [reflexivity|]. split; [reflexivity|]. split.
  - intros ->. reflexivity.
  - intros unknown ->. split; reflexivity.
Qed.

Lemma evidence_pages_witness :
  let manager :=
    {| get_node_by_hash := fun h =>
         if String.eqb h "a1" then Some (mkNode "a1" "p(HGNC:EGFR)") else None;
       query_edges := fun s t =>
         match s with
         | Some _ => [mkEdge "a1" "b2" (Some (mkEvidence "EGFR binds" "PMID:1")) "increases"]
         | None => []
         end |} in
  view_node manager "zz" = Raise AttributeError
  /\ exists page,
       view_relations manager [] "a1" "zz" = Return page
       /\ data page !! "EGFR binds" = Some ["increases"].
Proof.
  intros manager.
  destruct (evidence_pages manager [] "a1" "zz" (mkNode "a1" "p(HGNC:EGFR)")
              eq_refl) as (_ & _ & Hopen & Hunknown).
  split; [exact (proj1 (Hunknown "zz" eq_refl))|].
  rewrite (Hopen eq_refl). eexists. split; [reflexivity|].
  vm_compute. reflexivity.
Defined.

(** ** semantic_merge *)

Lemma fetch_all_Return pybel urls graphs :
  fetch_all pybel urls = Return graphs
  <-> Forall2 (fun url graph => from_url pybel url = Return graph) urls graphs.
Proof.
  revert graphs. induction urls as [|u urls IH]; intros graphs; simpl.
  - split; [intros [= <-]; constructor|]. intros H. inversion H. reflexivity.
  - destruct (from_url pybel u) as [g|e] eqn:Hu.
    + destruct (fetch_all pybel urls) as [gs|e].
      * split.
        -- intros [= <-]. constructor; [exact Hu|]. apply IH. reflexivity.
        -- intros H. inversion H as [|? g' ? gs' Hg Hgs]; subst.
           rewrite Hu in Hg. injection Hg as <-.
           apply IH in Hgs. injection Hgs as <-. reflexivity.
      * split; [discriminate|].
        intros H. inversion H as [|? g' ? gs' Hg Hgs]; subst.
        apply IH in Hgs. discriminate.
    + split; [discriminate|].
      intros H. inversion H as [|? g' ? gs' Hg Hgs]; subst.
      rewrite Hu in Hg. discriminate.
Qed.

Lemma fetch_all_Raise pybel urls e :
  fetch_all pybel urls = Raise e
  <-> exists before url after,
        urls = (before ++ url :: after)%list
        /\ Forall (fun u => exists graph, from_url pybel u = Return graph) before
        /\ from_url pybel url = Raise e.
Proof.
  induction urls as [|u urls IH]; simpl.
  - split; [discriminate|]. intros (b & x & a & H & _). destruct b; discriminate.
  - destruct (from_url pybel u) as [g|e'] eqn:Hu.
    + destruct (fetch_all pybel urls) as [gs|e''].
      * split; [discriminate|].
        intros ([|b0 b] & x & a & H & Hb & Hx); injection H as -> ->.
        -- rewrite Hu in Hx. discriminate.
        -- assert (Hr : Return gs = Raise e); [|discriminate].
           apply IH. exists b, x, a. inversion Hb. auto.
      * split.
        -- intros [= ->]. destruct (proj1 IH eq_refl) as (b & x & a & -> & Hb & Hx).
           exists (u :: b), x, a. split; [reflexivity|].
           split; [constructor; eauto|exact Hx].
        -- intros ([|b0 b] & x & a & H & Hb & Hx); injection H as -> ->.
           ++ rewrite Hu in Hx. discriminate.
           ++ apply IH. exists b, x, a. inversion Hb. auto.
    + split.
      * intros [= ->]. exists [], u, urls. auto.
      * intros ([|b0 b] & x & a & H & Hb & Hx); injection H as -> ->.
        -- rewrite Hu in Hx. injection Hx as ->. reflexivity.
        -- inversion Hb as [|? ? (g & Hg) ?]; subst. rewrite Hu in Hg. discriminate.
Qed.

(** X19: [semantic_merge] path by path.  A body that is not JSON raises
    [TypeError] and a JSON body without the key [urls] raises [KeyError].
    Otherwise the URLs are fetched in their order: the first one that fails
    ends the request with its exception, whatever the URLs after it would
    do; and when every URL parses, [union] is called on all the graphs, in
    the order of the URLs, and its result is served as BEL, an exception of
    [union] or of [serve_network] leaving the route as it is. *)
Theorem semantic_merge_outcome {R} pybel (union : list Graph -> result Graph)
    (serve_network : Graph -> string -> result R) request_json :
  let out := semantic_merge pybel union serve_network request_json in
  (request_json = None ->
   out = Raise (GeneralError "'NoneType' object is not subscriptable"))
  /\ (forall body, request_json = Some body ->
      (body !! "urls" = None -> out = Raise (KeyError "urls"))
      /\ (forall urls, body !! "urls" = Some urls ->
          (forall before url after e,
             urls = (before ++ url :: after)%list ->
             Forall (fun u => exists graph, from_url pybel u = Return graph)
               before ->
             from_url pybel url = Raise e ->
             out = Raise e)
          /\ (forall graphs,
                Forall2 (fun url graph => from_url pybel url = Return graph)
                  urls graphs ->
                (forall e, union graphs = Raise e -> out = Raise e)
                /\ (forall super_graph, union graphs = Return super_graph ->
                    out = serve_network super_graph "bel")))).
Proof.
  intros out. subst out. unfold semantic_merge.
  split; [intros ->; reflexivity|].
  intros body ->. split; [intros ->; reflexivity|].
  intros urls ->. split.
  - intros before url after e -> Hb Hx.
    assert (Hr : fetch_all pybel (before ++ url :: after) = Raise e)
      by (apply fetch_all_Raise; exists before, url, after; auto).
    rewrite Hr. reflexivity.
  - intros graphs Hg. apply fetch_all_Return in Hg. rewrite Hg.
    split; [intros e ->; reflexivity|intros g ->; reflexivity].
Qed.

Lemma semantic_merge_outcome_witness :
  semantic_merge Cases.pybel (fun graphs => Return (union (Sample.ext true) graphs))
    (fun g format => Return (content g, format))
    (Some {["urls" := ["http://example.org/egf.bel";
                       "http://example.org/orphan.bel"]]})
  = Return ([1; 2; 3; 7], "bel")
  /\ semantic_merge Cases.pybel (fun graphs => Return (union (Sample.ext true) graphs))
       (fun g format => Return (content g, format))
       (Some {["urls" := ["http://example.org/egf.bel"; "http://example.org/x.bel";
                          "http://example.org/orphan.bel"]]})
     = Raise ConnectionError.
Proof.
  split.
  - destruct (semantic_merge_outcome Cases.pybel
                (fun graphs => Return (union (Sample.ext true) graphs))
                (fun g format => Return (content g, format))
                (Some {["urls" := ["http://example.org/egf.bel";
                                   "http://example.org/orphan.bel"]]}))
      as (_ & H).
    destruct (H _ eq_refl) as (_ & Hu).
    destruct (Hu _ eq_refl) as (_ & Hall).
    destruct (Hall [Cases.egf_graph; Cases.orphan_graph]) as (_ & Hok).
    + repeat constructor.
    + exact (Hok _ eq_refl).
  - destruct (semantic_merge_outcome Cases.pybel
                (fun graphs => Return (union (Sample.ext true) graphs))
                (fun g format => Return (content g, format))
                (Some {["urls" := ["http://example.org/egf.bel";
                                   "http://example.org/x.bel";
                                   "http://example.org/orphan.bel"]]}))
      as (_ & H).
    destruct (H _ eq_refl) as (_ & Hu).
    destruct (Hu _ eq_refl) as (Hfirst & _).
    apply (Hfirst ["http://example.org/egf.bel"] "http://example.org/x.bel"
                  ["http://example.org/orphan.bel"] ConnectionError eq_refl).
    + repeat constructor. exists Cases.egf_graph. reflexivity.
    + reflexivity.
Defined.

(** ** FlaskPyBEL._prepare_service *)

Lemma kept_account_refl a : kept_account a a.
Proof. repeat split; auto. Qed.

Lemma kept_account_trans a b c :
  kept_account a b -> kept_account b c -> kept_account a c.
Proof.
  intros (E1 & P1 & C1 & R1) (E2 & P2 & C2 & R2).
  repeat split; try congruence. auto.
Qed.

Lemma accounts_kept_refl l : accounts_kept l l.
Proof. intros e a H. exists a. split; [exact H|apply kept_account_refl]. Qed.

Lemma accounts_kept_trans l1 l2 l3 :
  accounts_kept l1 l2 -> accounts_kept l2 l3 -> accounts_kept l1 l3.
Proof.
  intros H12 H23 e a H. destruct (H12 e a H) as (b & Hb & Kb).
  destruct (H23 e b Hb) as (c & Hc & Kc). exists c.
  split; [exact Hc|]. eapply kept_account_trans; eauto.
Qed.

Lemma has_role_kept email role l l' :
  accounts_kept l l' -> has_role email role l -> has_role email role l'.
Proof.
  intros K (a & Ha & Hr). destruct (K email a Ha) as (a' & Ha' & _ & _ & _ & R).
  exists a'. auto.
Qed.

Lemma add_role_kept role a : kept_account a (add_role role a).
Proof.
  unfold add_role. case_bool_decide; [apply kept_account_refl|].
  repeat split; simpl; auto. intros r Hr. apply in_or_app. auto.
Qed.

Lemma add_role_In role a : In role (account_roles (add_role role a)).
Proof.
  unfold add_role. case_bool_decide as H; simpl.
  - apply list_elem_of_In. exact H.
  - apply in_or_app. right. left. reflexivity.
Qed.

Lemma find_user_add_role email email' role l :
  find_user email' (add_role_to_user email role l)
  = if String.eqb email email' then add_role role <$> find_user email' l
    else find_user email' l.
Proof.
  unfold find_user, add_role_to_user.
  induction l as [|x l IH]; simpl; [destruct (String.eqb email email'); reflexivity|].
  destruct (String.eqb (account_email x) email) eqn:E1; simpl.
  - apply String.eqb_eq in E1.
    assert (Hx : account_email (add_role role x) = account_email x)
      by apply add_role_kept.
    rewrite Hx. destruct (String.eqb (account_email x) email') eqn:E2.
    + apply String.eqb_eq in E2.
      assert (String.eqb email email' = true) as ->
        by (apply String.eqb_eq; congruence).
      reflexivity.
    + apply String.eqb_neq in E2.
      assert (String.eqb email email' = false) as ->
        by (apply String.eqb_neq; congruence).
      reflexivity.
  - destruct (String.eqb (account_email x) email') eqn:E2; [|exact IH].
    apply String.eqb_eq in E2. apply String.eqb_neq in E1.
    assert (String.eqb email email' = false) as ->
      by (apply String.eqb_neq; congruence).
    reflexivity.
Qed.

Lemma find_user_create email email' password confirmed l :
  find_user email' (create_user email password confirmed l)
  = match find_user email' l with
    | Some a => Some a
    | None => if String.eqb email email'
              then Some (mkAccount email password confirmed [])
              else None
    end.
Proof.
  unfold find_user, create_user.
  destruct (find _ l) as [a|] eqn:H.
  - apply find_app_l. exact H.
  - rewrite find_app_r by exact H. simpl. reflexivity.
Qed.

Lemma add_role_to_user_kept email role l :
  accounts_kept l (add_role_to_user email role l).
Proof.
  intros e a H. rewrite find_user_add_role, H.
  destruct (String.eqb email e); simpl.
  - eexists. split; [reflexivity|apply add_role_kept].
  - exists a. split; [reflexivity|apply kept_account_refl].
Qed.

Lemma create_user_kept email password confirmed l :
  accounts_kept l (create_user email password confirmed l).
Proof.
  intros e a H. rewrite find_user_create, H. exists a.
  split; [reflexivity|apply kept_account_refl].
Qed.

Lemma add_role_to_user_has_role email role l a :
  find_user email l = Some a -> has_role email role (add_role_to_user email role l).
Proof.
  intros H. unfold has_role. rewrite find_user_add_role, String.eqb_refl, H.
  simpl. eexists. split; [reflexivity|apply add_role_In].
Qed.

Lemma ensure_admin_kept now email l : accounts_kept l (ensure_admin now email l).
Proof.
  unfold ensure_admin.
  eapply accounts_kept_trans; [|apply add_role_to_user_kept].
  eapply accounts_kept_trans; [|apply add_role_to_user_kept].
  destruct (find_user email l); [apply accounts_kept_refl|apply create_user_kept].
Qed.

Lemma ensure_admin_roles now email l :
  has_role email "admin" (ensure_admin now email l)
  /\ has_role email "scai" (ensure_admin now email l).
Proof.
  unfold ensure_admin.
  set (l0 := match find_user email l with
             | Some _ => l
             | None => create_user email "pybeladmin" (now email) l
             end).
  assert (H0 : exists a, find_user email l0 = Some a).
  { subst l0. destruct (find_user email l) as [a|] eqn:H; [eauto|].
    rewrite find_user_create, H, String.eqb_refl. eauto. }
  destruct H0 as (a & Ha).
  pose proof (add_role_to_user_has_role email "admin" l0 a Ha) as H1.
  split.
  - eapply has_role_kept; [apply add_role_to_user_kept|exact H1].
  - destruct H1 as (a1 & Ha1 & _).
    eapply add_role_to_user_has_role. exact Ha1.
Qed.

Lemma ensure_test_user_kept now l : accounts_kept l (ensure_test_user now l).
Proof.
  unfold ensure_test_user. destruct (find_user TEST_EMAIL l);
    [apply accounts_kept_refl|].
  eapply accounts_kept_trans; [apply create_user_kept|apply add_role_to_user_kept].
Qed.

Lemma prepare_service_run self now ds app manager :
  self_app self = Some app ->
  self_manager self = Some manager ->
  let out := _prepare_service self now ds in
  out.1 = Return tt
  /\ committed_accounts out.2 = accounts out.2
  /\ (forall email, In email [CHARLIE_EMAIL; DANIEL_EMAIL; ALEX_EMAIL] ->
      has_role email "admin" (accounts out.2)
      /\ has_role email "scai" (accounts out.2))
  /\ (find_user TEST_EMAIL (accounts ds) = None ->
      has_role TEST_EMAIL "scai" (accounts out.2))
  /\ (forall a, find_user TEST_EMAIL (accounts ds) = Some a ->
      find_user TEST_EMAIL (accounts out.2) = Some a)
  /\ accounts_kept (accounts ds) (accounts out.2).
Proof.
  intros Happ Hman out. subst out. unfold _prepare_service.
  rewrite Happ, Hman. cbn [foldl fst snd accounts committed_accounts].
  set (l1 := ensure_admin now CHARLIE_EMAIL (accounts ds)).
  set (l2 := ensure_admin now DANIEL_EMAIL l1).
  set (l3 := ensure_admin now ALEX_EMAIL l2).
  assert (K1 : accounts_kept (accounts ds) l1) by apply ensure_admin_kept.
  assert (K2 : accounts_kept l1 l2) by apply ensure_admin_kept.
  assert (K3 : accounts_kept l2 l3) by apply ensure_admin_kept.
  assert (K4 : accounts_kept l3 (ensure_test_user now l3))
    by apply ensure_test_user_kept.
  assert (Htest : forall l email,
            String.eqb email TEST_EMAIL = false ->
            find_user TEST_EMAIL (ensure_admin now email l)
            = find_user TEST_EMAIL l).
  { intros l email E.
    unfold ensure_admin. rewrite !find_user_add_role, E.
    destruct (find_user email l); [reflexivity|].
    rewrite find_user_create, E. destruct (find_user TEST_EMAIL l); reflexivity. }
  assert (H3 : find_user TEST_EMAIL l3 = find_user TEST_EMAIL (accounts ds)).
  { subst l3 l2 l1.
    rewrite (Htest _ ALEX_EMAIL) by reflexivity.
    rewrite (Htest _ DANIEL_EMAIL) by reflexivity.
    rewrite (Htest _ CHARLIE_EMAIL) by reflexivity. reflexivity. }
  split; [reflexivity|]. split; [reflexivity|].
  split; [|split; [|split]].
  - assert (K34 : accounts_kept l2 (ensure_test_user now l3))
      by (eapply accounts_kept_trans; [exact K3|exact K4]).
    assert (K24 : accounts_kept l1 (ensure_test_user now l3))
      by (eapply accounts_kept_trans; [exact K2|exact K34]).
    intros email [<-|[<-|[<-|[]]]].
    + destruct (ensure_admin_roles now CHARLIE_EMAIL (accounts ds)) as [Ha Hs].
      split; [exact (has_role_kept _ _ _ _ K24 Ha)|exact (has_role_kept _ _ _ _ K24 Hs)].
    + destruct (ensure_admin_roles now DANIEL_EMAIL l1) as [Ha Hs].
      split; [exact (has_role_kept _ _ _ _ K34 Ha)|exact (has_role_kept _ _ _ _ K34 Hs)].
    + destruct (ensure_admin_roles now ALEX_EMAIL l2) as [Ha Hs].
      split; [exact (has_role_kept _ _ _ _ K4 Ha)|exact (has_role_kept _ _ _ _ K4 Hs)].
  - intros Hnone. unfold ensure_test_user. rewrite H3, Hnone.
    eapply add_role_to_user_has_role.
    rewrite find_user_create, H3, Hnone, String.eqb_refl. reflexivity.
  - intros a Ha. unfold ensure_test_user. rewrite H3, Ha. rewrite H3. exact Ha.
  - eapply accounts_kept_trans; [exact K1|].
    eapply accounts_kept_trans; [exact K2|].
    eapply accounts_kept_trans; [exact K3|exact K4].
Qed.

(** X20: on an initialised extension [_prepare_service] returns with
    everything committed.  Each of the three administrators then has an
    account with the roles [admin] and [scai].  The test account exists;
    it has the role [scai] when this run created it, while a test account
    that was there before is left exactly as it was, the role being given
    only inside the branch that creates the account.  No account found
    before is lost: it keeps its email, password and confirmation date and
    every role it had. *)
Theorem _prepare_service_accounts self now ds app manager :
  self_app self = Some app ->
  self_manager self = Some manager ->
  let out := _prepare_service self now ds in
  out.1 = Return tt
  /\ committed_accounts out.2 = accounts out.2
  /\ (forall email, In email [CHARLIE_EMAIL; DANIEL_EMAIL; ALEX_EMAIL] ->
      has_role email "admin" (accounts out.2)
      /\ has_role email "scai" (accounts out.2))
  /\ (find_user TEST_EMAIL (accounts ds) = None ->
      has_role TEST_EMAIL "scai" (accounts out.2))
  /\ (forall a, find_user TEST_EMAIL (accounts ds) = Some a ->
      find_user TEST_EMAIL (accounts out.2) = Some a)
  /\ accounts_kept (accounts ds) (accounts out.2).
Proof. exact (prepare_service_run self now ds app manager). Qed.

Lemma _prepare_service_accounts_witness :
  let stale := mkAccount TEST_EMAIL "old" 1 [] in
  let out := _prepare_service (mkFlaskPyBEL (Some "app") (Some "manager"))
               (fun _ => 2) (mkUserDatastore [stale] [stale]) in
  has_role CHARLIE_EMAIL "admin" (accounts out.2)
  /\ find_user TEST_EMAIL (accounts out.2) = Some stale.
Proof.
  intros stale out.
  destruct (_prepare_service_accounts (mkFlaskPyBEL (Some "app") (Some "manager"))
              (fun _ => 2) (mkUserDatastore [stale] [stale]) "app" "manager"
              eq_refl eq_refl) as (_ & _ & Hadmin & _ & Htest & _).
  split.
  - apply (Hadmin CHARLIE_EMAIL). left. reflexivity.
  - apply Htest. reflexivity.
Defined.

Lemma alter_first_fixed {A} (p : A -> bool) f (l : list A) a :
  find p l = Some a -> f a = a -> alter_first p f l = l.
Proof.
  induction l as [|x l IH]; simpl; [discriminate|].
  destruct (p x).
  - intros [= ->] ->. reflexivity.
  - intros H Hf. rewrite IH; auto.
Qed.

Lemma add_role_to_user_fixed email role l :
  has_role email role l -> add_role_to_user email role l = l.
Proof.
  intros (a & Ha & Hr). unfold add_role_to_user.
  apply (alter_first_fixed _ _ _ a Ha).
  unfold add_role. rewrite bool_decide_eq_true_2; [reflexivity|].
  apply list_elem_of_In. exact Hr.
Qed.

Lemma ensure_admin_fixed now email l :
  has_role email "admin" l -> has_role email "scai" l ->
  ensure_admin now email l = l.
Proof.
  intros H1 H2. unfold ensure_admin.
  destruct H1 as (a & Ha & Hr). rewrite Ha.
  rewrite (add_role_to_user_fixed email "admin" l) by (exists a; auto).
  apply add_role_to_user_fixed. exact H2.
Qed.

(** X21: [_prepare_service] either raises [ValueError] because the
    application or the manager is missing, and then touches no account, or
    it returns, and then a second run, at whatever time, changes
    nothing. *)
Theorem _prepare_service_idempotent self now now' ds :
  let out := _prepare_service self now ds in
  (out = (Raise (ValueError "not initialized"), ds)
   /\ (self_app self = None \/ self_manager self = None))
  \/ (out.1 = Return tt
      /\ _prepare_service self now' out.2 = (Return tt, out.2)).
Proof.
  intros out.
  destruct (self_app self) as [app|] eqn:Happ;
    [|left; subst out; unfold _prepare_service; rewrite Happ; auto].
  destruct (self_manager self) as [manager|] eqn:Hman;
    [|left; subst out; unfold _prepare_service; rewrite Happ, Hman; auto].
  right.
  destruct (prepare_service_run self now ds app manager Happ Hman)
    as (Hr & Hc & Hadmin & Hnew & Hold & _).
  fold out in Hr, Hc, Hadmin, Hnew, Hold.
  assert (Htest : exists t, find_user TEST_EMAIL (accounts out.2) = Some t).
  { destruct (find_user TEST_EMAIL (accounts ds)) as [t|]; [eauto|].
    destruct (Hnew eq_refl) as (t & Ht & _). eauto. }
  split; [exact Hr|].
  unfold _prepare_service at 1. rewrite Happ, Hman. cbn [foldl].
  destruct (Hadmin CHARLIE_EMAIL) as [A1 S1]; [simpl; auto|].
  destruct (Hadmin DANIEL_EMAIL) as [A2 S2]; [simpl; auto|].
  destruct (Hadmin ALEX_EMAIL) as [A3 S3]; [simpl; auto|].
  rewrite (ensure_admin_fixed now' CHARLIE_EMAIL _ A1 S1).
  rewrite (ensure_admin_fixed now' DANIEL_EMAIL _ A2 S2).
  rewrite (ensure_admin_fixed now' ALEX_EMAIL _ A3 S3).
  unfold ensure_test_user. destruct Htest as (t & Ht). rewrite Ht.
  destruct out.2 as [l c]. simpl in *. subst c. reflexivity.
Qed.
